(** * Plots backend: colony counters, plot price, validation, pagination

  A shallow embedding of the parts of the backend that carry the
  specification's invariants:

  - [utils/validation.js]: [sanitizers.sanitizePhone],
    [sanitizers.sanitizeString], [sanitizers.isValidObjectId],
    [sanitizeRequest], [handleValidationErrors] and the validation chains
    it reports on;
  - [models/Colony.js]: the colony schema and [updatePlotCounts];
  - the Plot model: the plot schema with its [pre('save')], [post('save')]
    and [post('remove')] middleware;
  - the plot routes and the colony routes: the read, list, create, update
    and delete handlers, and the plot routes behind their validators;
  - [models/Property.js] and the listing of the properties;
  - the City model and the seeding of cities by [initCities].

  JavaScript strings are [string]; JavaScript numbers that hold
  measurements and prices are exact rationals [Q], counters are integers
  [Z]; a MongoDB collection is the list of its documents in insertion
  order; a request handler is a function from the database to a response
  and the database it leaves behind. *)

From Stdlib Require Import List String Ascii Bool Arith ZArith QArith Qround Lia.
Import ListNotations.

Local Close Scope Q_scope.
Local Open Scope string_scope.

#[local] Set Warnings "-register-all".

(** ** JavaScript values *)

Module Js.

(** The values a request can carry in its body, parameters or query. *)
Inductive Value : Type :=
| Undefined
| Null
| Boolean (b : bool)
| Number (q : Q)
| Str (s : string)
| Arr (items : list Value)
| Obj (entries : list (string * Value)).

(** The character class [\d]: the ten ASCII digits. *)
Definition isDigit (c : ascii) : bool :=
  (48 <=? nat_of_ascii c)%nat && (nat_of_ascii c <=? 57)%nat.

(** [s.replace(/\D/g, '')]: every character outside [\d] is dropped. *)
Fixpoint removeNonDigits (s : string) : string :=
  match s with
  | EmptyString => EmptyString
  | String c rest =>
      if isDigit c then String c (removeNonDigits rest)
      else removeNonDigits rest
  end.

(** Truthiness of a number: everything but zero (the model has no NaN). *)
Definition truthy (q : Q) : bool := negb (Qeq_bool q 0%Q).

End Js.

(** ** utils/validation.js: sanitizers *)

Module Sanitizers.

Import Js.

(** [sanitizers.sanitizePhone]; [None] is JavaScript's [null]. *)
Definition sanitizePhone (phone : Value) : option string :=
  match phone with
  | Str s =>
      let digitsOnly := removeNonDigits s in
      if (String.length digitsOnly =? 10)%nat then
        Some ("+91" ++ digitsOnly)
      else if (10 <=? String.length digitsOnly)%nat
              && (String.length digitsOnly <=? 15)%nat then
        Some ("+" ++ digitsOnly)
      else None
  | _ => None
  end.

(** The specification's wording of the phone rule, case by case, over the
    digits extracted from the input. *)
Inductive phoneRule (s : string) : option string -> Prop :=
| phone_ten :
    String.length (removeNonDigits s) = 10%nat ->
    phoneRule s (Some ("+91" ++ removeNonDigits s))
| phone_international :
    (10 <= String.length (removeNonDigits s) <= 15)%nat ->
    String.length (removeNonDigits s) <> 10%nat ->
    phoneRule s (Some ("+" ++ removeNonDigits s))
| phone_rejected :
    ~ (10 <= String.length (removeNonDigits s) <= 15)%nat ->
    phoneRule s None.

End Sanitizers.


(** ** The validator library: [trim] and [escape]

    A character is read as a UTF-16 code unit below 256, so the class [\s]
    is the tab to carriage return range, the space and the no-break
    space. *)

Module ValidatorJs.

Definition isWhitespace (c : ascii) : bool :=
  let n := nat_of_ascii c in
  ((9 <=? n) && (n <=? 13) || (n =? 32) || (n =? 160))%nat.

(** [str.replace(/^\s+/g, '')] *)
Fixpoint ltrim (s : string) : string :=
  match s with
  | EmptyString => EmptyString
  | String c rest => if isWhitespace c then ltrim rest else s
  end.

(** Trailing whitespace is cut off. *)
Fixpoint rtrim (s : string) : string :=
  match s with
  | EmptyString => EmptyString
  | String c rest =>
      match rtrim rest with
      | EmptyString => if isWhitespace c then EmptyString else String c EmptyString
      | kept => String c kept
      end
  end.

(** [validator.trim(str)] *)
Definition trim (s : string) : string := rtrim (ltrim s).

(** The entity [validator.escape] puts for a character, if any: the
    ampersand, the double and single quote, the angle brackets, the slash,
    the backslash and the backtick. *)
Definition entity (c : ascii) : option string :=
  let n := nat_of_ascii c in
  if (n =? 38)%nat then Some "&amp;"
  else if (n =? 34)%nat then Some "&quot;"
  else if (n =? 39)%nat then Some "&#x27;"
  else if (n =? 60)%nat then Some "&lt;"
  else if (n =? 62)%nat then Some "&gt;"
  else if (n =? 47)%nat then Some "&#x2F;"
  else if (n =? 92)%nat then Some "&#x5C;"
  else if (n =? 96)%nat then Some "&#96;"
  else None.

(** [validator.escape(str)] *)
Fixpoint escape (s : string) : string :=
  match s with
  | EmptyString => EmptyString
  | String c rest =>
      match entity c with
      | Some e => e ++ escape rest
      | None => String c (escape rest)
      end
  end.

(** A character of an escaped string: not one of the eight that are
    replaced, except for the ampersand that opens an entity. *)
Definition escapedChar (c : ascii) : bool :=
  match entity c with
  | None => true
  | Some _ => (nat_of_ascii c =? 38)%nat
  end.

(** A plain character: neither whitespace nor one of the escaped eight. *)
Definition plainChar (c : ascii) : bool :=
  negb (isWhitespace c)
  && match entity c with None => true | Some _ => false end.

End ValidatorJs.

(** ** The document store *)

(** MongoDB object identifiers: 24 hexadecimal characters, compared as
    text. *)
Definition ObjectId := string.

(** Results of store operations that can throw. *)
Inductive StoreError : Type :=
| ValidationError (path : string)
| DocumentNotFoundError.

Inductive Result (A : Type) : Type :=
| Ok (a : A)
| Err (e : StoreError).

Arguments Ok {A} a.
Arguments Err {A} e.

Definition andThen {A B} (r : Result A) (k : A -> Result B) : Result B :=
  match r with
  | Ok a => k a
  | Err e => Err e
  end.

Notation "'let*' x ':=' r 'in' k" := (andThen r (fun x => k))
  (at level 10, x pattern, r at level 100, k at level 200).

(** A required path: absent values are a validation error on that path. *)
Definition required {A} (path : string) (v : option A) : Result A :=
  match v with
  | Some a => Ok a
  | None => Err (ValidationError path)
  end.

(** The setter of a string path with [trim: true]: the text loses its
    leading and trailing whitespace, the characters of the class [\s]. *)
Definition trimmed (v : option string) : option string :=
  option_map ValidatorJs.trim v.

(** A required string path also rejects the empty string. *)
Definition requiredString (path : string) (v : option string) : Result string :=
  match v with
  | Some EmptyString | None => Err (ValidationError path)
  | Some s => Ok s
  end.

(** A path with a schema default. *)
Definition withDefault {A} (d : A) (v : option A) : A :=
  match v with
  | Some a => a
  | None => d
  end.

(** [$set]: a supplied value replaces the stored one. *)
Definition assign {A} (v : option A) (old : A) : A :=
  match v with
  | Some a => a
  | None => old
  end.

(** ** The Plot model: the schema *)

Inductive PlotStatus : Type := available | blocked | sold | reserved.

Inductive Facing : Type :=
| north | south | east | west
| northeast | northwest | southeast | southwest.

Definition PlotStatus_eqb (a b : PlotStatus) : bool :=
  match a, b with
  | available, available | blocked, blocked
  | sold, sold | reserved, reserved => true
  | _, _ => false
  end.


Module Plot.

(** A stored plot document (the paths the rules below read or write). *)
Record t : Type := mk {
  _id : ObjectId;
  plotNumber : string;
  colony : ObjectId;
  area : Q;
  pricePerSqFt : Q;
  totalPrice : Q;
  status : PlotStatus;
  corner : bool;
  facing : Facing;
  roadWidth : Q;
  createdBy : ObjectId
}.

(** An in-flight document or an update: every path may be absent. *)
Record fields : Type := mkFields {
  f_plotNumber : option string;
  f_colony : option ObjectId;
  f_area : option Q;
  f_pricePerSqFt : option Q;
  f_totalPrice : option Q;
  f_status : option PlotStatus;
  f_corner : option bool;
  f_facing : option Facing;
  f_roadWidth : option Q;
  f_createdBy : option ObjectId
}.

Definition setTotalPrice (v : option Q) (d : fields) : fields :=
  mkFields (f_plotNumber d) (f_colony d) (f_area d) (f_pricePerSqFt d) v
           (f_status d) (f_corner d) (f_facing d) (f_roadWidth d)
           (f_createdBy d).

(** Schema validation and defaults: [plotNumber], [colony], [area],
    [pricePerSqFt], [totalPrice], [facing] and [createdBy] are required;
    [status] defaults to available, [corner] to false, [roadWidth] to 0. *)
Definition validate (id : ObjectId) (d : fields) : Result t :=
  let* n := requiredString "plotNumber" (f_plotNumber d) in
  let* c := required "colony" (f_colony d) in
  let* a := required "area" (f_area d) in
  let* p := required "pricePerSqFt" (f_pricePerSqFt d) in
  let* tp := required "totalPrice" (f_totalPrice d) in
  let* fc := required "facing" (f_facing d) in
  let* by_ := required "createdBy" (f_createdBy d) in
  Ok (mk id n c a p tp
         (withDefault available (f_status d))
         (withDefault false (f_corner d))
         fc
         (withDefault 0%Q (f_roadWidth d))
         by_).

(** [$set] of the supplied paths on a stored document. *)
Definition set (u : fields) (p : t) : t :=
  mk (_id p)
     (assign (f_plotNumber u) (plotNumber p))
     (assign (f_colony u) (colony p))
     (assign (f_area u) (area p))
     (assign (f_pricePerSqFt u) (pricePerSqFt p))
     (assign (f_totalPrice u) (totalPrice p))
     (assign (f_status u) (status p))
     (assign (f_corner u) (corner p))
     (assign (f_facing u) (facing p))
     (assign (f_roadWidth u) (roadWidth p))
     (assign (f_createdBy u) (createdBy p)).

End Plot.

(** ** models/Colony.js: the schema *)

Inductive ColonyStatus : Type :=
| planning | ready_to_sell | on_hold | active | inactive | sold_out
| under_development.

Module Colony.

Record t : Type := mk {
  _id : ObjectId;
  name : string;
  address : string;
  city : option ObjectId;
  totalArea : option Q;
  totalPlots : Z;
  availablePlots : Z;
  soldPlots : Z;
  blockedPlots : Z;
  pricePerSqFt : option Q;
  status : ColonyStatus;
  createdBy : ObjectId
}.

Record fields : Type := mkFields {
  f_name : option string;
  f_address : option string;
  f_city : option ObjectId;
  f_totalArea : option Q;
  f_totalPlots : option Z;
  f_availablePlots : option Z;
  f_soldPlots : option Z;
  f_blockedPlots : option Z;
  f_pricePerSqFt : option Q;
  f_status : option ColonyStatus;
  f_createdBy : option ObjectId
}.

(** The four derived counters of a colony. *)
Definition counters (c : t) : Z * Z * Z * Z :=
  (totalPlots c, availablePlots c, soldPlots c, blockedPlots c).

Definition setCounters (n : Z * Z * Z * Z) (c : t) : t :=
  let '(tot, av, so, bl) := n in
  mk (_id c) (name c) (address c) (city c) (totalArea c)
     tot av so bl
     (pricePerSqFt c) (status c) (createdBy c).

(** Schema validation and defaults: [name], [address] and [createdBy] are
    required, [name] and [address] are trimmed when they are set; the four
    counters default to 0 and [status] to planning. *)
Definition validate (id : ObjectId) (d : fields) : Result t :=
  let* n := requiredString "name" (trimmed (f_name d)) in
  let* a := requiredString "address" (trimmed (f_address d)) in
  let* by_ := required "createdBy" (f_createdBy d) in
  Ok (mk id n a (f_city d) (f_totalArea d)
         (withDefault 0%Z (f_totalPlots d))
         (withDefault 0%Z (f_availablePlots d))
         (withDefault 0%Z (f_soldPlots d))
         (withDefault 0%Z (f_blockedPlots d))
         (f_pricePerSqFt d)
         (withDefault planning (f_status d))
         by_).

Definition set (u : fields) (c : t) : t :=
  mk (_id c)
     (assign (trimmed (f_name u)) (name c))
     (assign (trimmed (f_address u)) (address c))
     (match f_city u with Some x => Some x | None => city c end)
     (match f_totalArea u with Some x => Some x | None => totalArea c end)
     (assign (f_totalPlots u) (totalPlots c))
     (assign (f_availablePlots u) (availablePlots c))
     (assign (f_soldPlots u) (soldPlots c))
     (assign (f_blockedPlots u) (blockedPlots c))
     (match f_pricePerSqFt u with Some x => Some x | None => pricePerSqFt c end)
     (assign (f_status u) (status c))
     (assign (f_createdBy u) (createdBy c)).

End Colony.

(** ** models/Property.js: the schema *)

Module Property.

Inductive Category : Type := Residential | Commercial | Farmhouse.

Inductive Status : Type := draft | active | inactive.

(** A stored property listing (the media bundle is not carried). *)
Record t : Type := mk {
  _id : ObjectId;
  name : string;
  category : Category;
  colony : ObjectId;
  city : option ObjectId;
  area : option string;
  address : option string;
  tagline : option string;
  description : option string;
  facilities : list string;
  amenities : list string;
  status : Status;
  createdBy : ObjectId
}.

End Property.

(** The database: the two collections, each in insertion order. *)
Record Db : Type := mkDb {
  plots : list Plot.t;
  colonies : list Colony.t
}.

(** Store operations read and write the database and may throw; what was
    written before a throw stays written. *)
Definition M (A : Type) : Type := Db -> Result A * Db.

Definition ret {A} (a : A) : M A := fun db => (Ok a, db).

Definition bind {A B} (m : M A) (k : A -> M B) : M B :=
  fun db =>
    match m db with
    | (Ok a, db') => k a db'
    | (Err e, db') => (Err e, db')
    end.

Definition lift {A} (r : Result A) : M A := fun db => (r, db).

Definition query {A} (f : Db -> A) : M A := fun db => (Ok (f db), db).

Definition write (f : Db -> Db) : M unit := fun db => (Ok tt, f db).

Notation "x <- m ;; k" := (bind m (fun x => k))
  (at level 61, m at next level, right associativity).

(** ** Queries on the Plot collection *)

Module PlotQuery.

(** The filter [{ colony: id }]. *)
Definition byColony (id : ObjectId) (plot : Plot.t) : bool :=
  String.eqb (Plot.colony plot) id.

(** The filter [{ plotNumber: n, colony: id }]. *)
Definition byNumberAndColony (n : string) (id : ObjectId) (plot : Plot.t)
  : bool :=
  String.eqb (Plot.plotNumber plot) n && String.eqb (Plot.colony plot) id.

Definition find (q : Plot.t -> bool) (db : Db) : list Plot.t :=
  filter q (plots db).

Definition findOne (q : Plot.t -> bool) (db : Db) : option Plot.t :=
  List.find q (plots db).

Definition findById (id : ObjectId) (db : Db) : option Plot.t :=
  List.find (fun plot => String.eqb (Plot._id plot) id) (plots db).

Definition countDocuments (q : Plot.t -> bool) (db : Db) : nat :=
  List.length (filter q (plots db)).

End PlotQuery.

(** ** models/Colony.js: the model and [updatePlotCounts] *)

Module ColonyModel.

Definition findById (id : ObjectId) (db : Db) : option Colony.t :=
  List.find (fun c => String.eqb (Colony._id c) id) (colonies db).

Definition countDocuments (q : Colony.t -> bool) (db : Db) : nat :=
  List.length (filter q (colonies db)).

Definition replace (doc : Colony.t) (db : Db) : Db :=
  mkDb (plots db)
       (map (fun c =>
               if String.eqb (Colony._id c) (Colony._id doc) then doc else c)
            (colonies db)).

(** [doc.save()] on a document loaded from the store: the stored document
    with the same [_id] takes the document's values. *)
Definition save (doc : Colony.t) : M unit :=
  fun db =>
    match findById (Colony._id doc) db with
    | Some _ => (Ok tt, replace doc db)
    | None => (Err DocumentNotFoundError, db)
    end.

(** [plots.filter(plot => plot.status === s).length] *)
Definition countStatus (s : PlotStatus) (plots : list Plot.t) : Z :=
  Z.of_nat
    (List.length
       (filter (fun plot => PlotStatus_eqb (Plot.status plot) s) plots)).

(** The four counters computed from a loaded list of plots. *)
Definition plotCounts (plots : list Plot.t) : Z * Z * Z * Z :=
  (Z.of_nat (List.length plots),
   countStatus available plots,
   countStatus sold plots,
   countStatus blocked plots).

(** [colonySchema.methods.updatePlotCounts] *)
Definition updatePlotCounts (this : Colony.t) : M Colony.t :=
  plots <- query (PlotQuery.find (PlotQuery.byColony (Colony._id this))) ;;
  let this' := Colony.setCounters (plotCounts plots) this in
  _ <- save this' ;;
  ret this'.

(** [Colony.create(data)]: validation with defaults, then insertion. *)
Definition create (id : ObjectId) (data : Colony.fields) : M Colony.t :=
  doc <- lift (Colony.validate id data) ;;
  _ <- write (fun db => mkDb (plots db) (colonies db ++ [doc])) ;;
  ret doc.

(** Update validators look at the supplied paths only. *)
Definition validateUpdate (u : Colony.fields) : Result unit :=
  match trimmed (Colony.f_name u), trimmed (Colony.f_address u) with
  | Some EmptyString, _ => Err (ValidationError "name")
  | _, Some EmptyString => Err (ValidationError "address")
  | _, _ => Ok tt
  end.

(** [Colony.findByIdAndUpdate(id, update, { new: true, runValidators: true })] *)
Definition findByIdAndUpdate (id : ObjectId) (u : Colony.fields)
  : M (option Colony.t) :=
  _ <- lift (validateUpdate u) ;;
  found <- query (findById id) ;;
  match found with
  | None => ret None
  | Some c =>
      let c' := Colony.set u c in
      _ <- write (replace c') ;;
      ret (Some c')
  end.

End ColonyModel.

(** ** Document middleware *)

Module Hook.

(** The document and query functions middleware can be registered for.
    Mongoose runs a hook for the function it is registered under and for
    no other: a hook under [remove] runs on [doc.remove()], not on
    [doc.deleteOne()], and a hook under [save] does not run on
    [findOneAndUpdate]. *)
Inductive name : Type :=
| validate | save | remove | updateOne | deleteOne | findOneAndUpdate.

Definition eqb (a b : name) : bool :=
  match a, b with
  | validate, validate | save, save | remove, remove
  | updateOne, updateOne | deleteOne, deleteOne
  | findOneAndUpdate, findOneAndUpdate => true
  | _, _ => false
  end.

End Hook.

(** ** The Plot model: the middleware and the model functions *)

Module PlotModel.

(** [plotSchema.pre('save', ...)]: calculate total price before saving. *)
Definition calcTotalPrice (this : Plot.fields) : Plot.fields :=
  match Plot.f_area this, Plot.f_pricePerSqFt this with
  | Some area, Some pricePerSqFt =>
      if Js.truthy area && Js.truthy pricePerSqFt then
        Plot.setTotalPrice (Some (area * pricePerSqFt)%Q) this
      else this
  | _, _ => this
  end.

(** [plotSchema.post('save', ...)] and [plotSchema.post('remove', ...)]
    have the same body: update colony plot counts. *)
Definition updateColonyCounts (this : Plot.t) : M unit :=
  colony <- query (ColonyModel.findById (Plot.colony this)) ;;
  match colony with
  | Some colony => _ <- ColonyModel.updatePlotCounts colony ;; ret tt
  | None => ret tt
  end.

(** The middleware the schema registers, under the names it gives. *)
Definition preHooks : list (Hook.name * (Plot.fields -> Plot.fields)) :=
  [ (Hook.save, calcTotalPrice) ].

Definition postHooks : list (Hook.name * (Plot.t -> M unit)) :=
  [ (Hook.save, updateColonyCounts);
    (Hook.remove, updateColonyCounts) ].

Definition runPre (fn : Hook.name) (doc : Plot.fields) : Plot.fields :=
  fold_left
    (fun d h => if Hook.eqb (fst h) fn then snd h d else d)
    preHooks doc.

Definition runPost (fn : Hook.name) (doc : Plot.t) : M unit :=
  fold_left
    (fun m h => if Hook.eqb (fst h) fn then (_ <- m ;; snd h doc) else m)
    postHooks (ret tt).

(** [Plot.create(data)]: a new document is saved.  Built-in validation is
    the first pre-save step, the schema's own pre-save middleware follows,
    then the insertion, then the post-save middleware. *)
Definition create (id : ObjectId) (data : Plot.fields) : M Plot.t :=
  _ <- lift (Plot.validate id data) ;;
  doc <- lift (Plot.validate id (runPre Hook.save data)) ;;
  _ <- write (fun db => mkDb (plots db ++ [doc]) (colonies db)) ;;
  _ <- runPost Hook.save doc ;;
  ret doc.

Definition replace (doc : Plot.t) (db : Db) : Db :=
  mkDb (map (fun p =>
               if String.eqb (Plot._id p) (Plot._id doc) then doc else p)
            (plots db))
       (colonies db).

Definition validateUpdate (u : Plot.fields) : Result unit :=
  match Plot.f_plotNumber u with
  | Some EmptyString => Err (ValidationError "plotNumber")
  | _ => Ok tt
  end.

(** [Plot.findByIdAndUpdate(id, update, { new: true, runValidators: true })]:
    a query; the middleware that runs is the one registered for
    [findOneAndUpdate]. *)
Definition findByIdAndUpdate (id : ObjectId) (u : Plot.fields)
  : M (option Plot.t) :=
  _ <- lift (validateUpdate u) ;;
  found <- query (PlotQuery.findById id) ;;
  match found with
  | None => ret None
  | Some p =>
      let p' := Plot.set u p in
      _ <- write (replace p') ;;
      _ <- runPost Hook.findOneAndUpdate p' ;;
      ret (Some p')
  end.

(** The collection without the document. *)
Definition without (this : Plot.t) (db : Db) : Db :=
  mkDb (filter (fun p => negb (String.eqb (Plot._id p) (Plot._id this)))
               (plots db))
       (colonies db).

(** [doc.deleteOne()]: the document leaves the collection; the middleware
    that runs is the one registered for [deleteOne]. *)
Definition deleteOne (this : Plot.t) : M unit :=
  _ <- write (without this) ;;
  runPost Hook.deleteOne this.

(** [doc.remove()]: the same removal, with the middleware registered for
    [remove].  No handler calls it. *)
Definition remove (this : Plot.t) : M unit :=
  _ <- write (without this) ;;
  runPost Hook.remove this.

End PlotModel.

(** ** utils/validation.js: validation chains and their result *)

Module Validation.

Import Js.

Inductive Location : Type := body | params | query.

(** A request as the validators see it. *)
Record Request : Type := mkRequest {
  req_body : Value;
  req_params : Value;
  req_query : Value
}.

Definition part (l : Location) (req : Request) : Value :=
  match l with
  | body => req_body req
  | params => req_params req
  | query => req_query req
  end.

(** The value under a dotted path such as [coordinates.x]; absent keys give
    [undefined]. *)
Fixpoint select (path : list string) (v : Value) : Value :=
  match path with
  | [] => v
  | key :: rest =>
      match v with
      | Obj entries =>
          match List.find (fun e => String.eqb (fst e) key) entries with
          | Some e => select rest (snd e)
          | None => Undefined
          end
      | _ => Undefined
      end
  end.

(** One link of a chain: a validator with the message given by
    [withMessage], or a sanitizer.  [check] is a [custom] validator, which
    is handed the value as it is ([isArray] is one of these).  [standard] is
    one of the validators on text ([isIn], [isLength], [matches], ...): it
    is asked about the value or, for an array, about each of its elements,
    [test] telling whether the text of what it is given passes. *)
Inductive Step : Type :=
| check (test : Value -> bool) (msg : string)
| standard (test : Value -> bool) (msg : string)
| sanitize (f : Value -> Value).

(** [Array.isArray(value) ? value : [value]] *)
Definition elements (value : Value) : list Value :=
  match value with
  | Arr items => items
  | _ => [value]
  end.

(** [body('a.b').optional()....]: where the field lives, whether the chain
    is skipped for an absent field, and its links in order. *)
Record Chain : Type := mkChain {
  location : Location;
  path : list string;
  optional : bool;
  steps : list Step
}.

(** What [validationResult(req).array()] holds for one failed validator. *)
Record FieldError : Type := mkFieldError {
  err_location : Location;
  err_path : list string;
  err_value : Value;
  err_msg : string
}.

(** The links run in order on the current value; a failed validator
    records an error and the chain goes on (no chain in the file bails).  A
    validator on text records one error for each element it refuses, with
    that element as the value. *)
Fixpoint runSteps (l : Location) (p : list string) (ss : list Step)
         (value : Value) : list FieldError :=
  match ss with
  | [] => []
  | check test msg :: rest =>
      if test value then runSteps l p rest value
      else mkFieldError l p value msg :: runSteps l p rest value
  | standard test msg :: rest =>
      (map (fun v => mkFieldError l p v msg)
           (List.filter (fun v => negb (test v)) (elements value))
       ++ runSteps l p rest value)%list
  | sanitize f :: rest => runSteps l p rest (f value)
  end.

Definition isUndefined (v : Value) : bool :=
  match v with Undefined => true | _ => false end.

Definition runChain (req : Request) (c : Chain) : list FieldError :=
  let value := select (path c) (part (location c) req) in
  if optional c && isUndefined value then []
  else runSteps (location c) (path c) (steps c) value.

Definition validationResult (chains : list Chain) (req : Request)
  : list FieldError :=
  flat_map (runChain req) chains.

(** The number of violations of the chains by the request: one for a
    [custom] validator that refuses the value, one for each element that a
    validator on text refuses. *)
Fixpoint violatedSteps (ss : list Step) (value : Value) : nat :=
  match ss with
  | [] => 0
  | check test _ :: rest =>
      (if test value then 0 else 1) + violatedSteps rest value
  | standard test _ :: rest =>
      List.length (List.filter (fun v => negb (test v)) (elements value))
      + violatedSteps rest value
  | sanitize f :: rest => violatedSteps rest (f value)
  end.

Definition violated (chains : list Chain) (req : Request) : nat :=
  list_sum
    (map (fun c =>
            let value := select (path c) (part (location c) req) in
            if optional c && isUndefined value then 0
            else violatedSteps (steps c) value)
         chains).

(** The record [handleValidationErrors] reports for one error. *)
Record ErrorDetail : Type := mkErrorDetail {
  field : list string;
  message : string;
  value : Value;
  location_ : Location
}.

Definition errorDetail (error : FieldError) : ErrorDetail :=
  mkErrorDetail (err_path error) (err_msg error) (err_value error)
                (err_location error).

(** What a request part holds under a path, told from the part itself: the
    value of the first entry under each key in turn, and [undefined] where a
    key is missing or the value above it is no object. *)
Inductive heldAt : Value -> list string -> Value -> Prop :=
| heldAt_here (v : Value) : heldAt v [] v
| heldAt_entry (before : list (string * Value)) (key : string) (u : Value)
               (after : list (string * Value)) (rest : list string)
               (w : Value) :
    ~ In key (map fst before) ->
    heldAt u rest w ->
    heldAt (Obj (before ++ (key, u) :: after)) (key :: rest) w
| heldAt_absent (entries : list (string * Value)) (key : string)
                (rest : list string) :
    ~ In key (map fst entries) ->
    heldAt (Obj entries) (key :: rest) Undefined
| heldAt_scalar (v : Value) (key : string) (rest : list string) :
    (forall entries, v <> Obj entries) ->
    heldAt v (key :: rest) Undefined.

(** The value that reaches a link: what the sanitizers before it have made
    of the field. *)
Definition valueAfter (before : list Step) (v : Value) : Value :=
  fold_left (fun v s => match s with sanitize f => f v | _ => v end)
            before v.

(** [rejects s v msg x]: the validator [s], given [v], reports [x] with the
    message [msg].  A [custom] validator reports the value it refuses; a
    validator on text reports each element of an array that it refuses, and
    a refused value that is no array. *)
Inductive rejects : Step -> Value -> string -> Value -> Prop :=
| rejects_check (test : Value -> bool) (msg : string) (v : Value) :
    test v = false ->
    rejects (check test msg) v msg v
| rejects_element (test : Value -> bool) (msg : string)
                  (items : list Value) (x : Value) :
    In x items ->
    test x = false ->
    rejects (standard test msg) (Arr items) msg x
| rejects_text (test : Value -> bool) (msg : string) (v : Value) :
    (forall items, v <> Arr items) ->
    test v = false ->
    rejects (standard test msg) v msg v.

(** [violates req c d]: the request violates a rule of the chain [c], and
    [d] is the record of that violation: the chain's field and location,
    the rule's message and the value the rule refused.  An optional chain
    has no say on a field that is [undefined]. *)
Definition violates (req : Request) (c : Chain) (d : ErrorDetail) : Prop :=
  exists (v : Value) (before : list Step) (s : Step) (rest : list Step),
    heldAt (part (location c) req) (path c) v
    /\ (optional c = false \/ v <> Undefined)
    /\ steps c = (before ++ s :: rest)%list
    /\ rejects s (valueAfter before v) (message d) (value d)
    /\ field d = path c
    /\ location_ d = location c.

(** The number of rules of the chains that the request violates, each rule
    counted once. *)
Fixpoint violatedRuleSteps (ss : list Step) (value : Value) : nat :=
  match ss with
  | [] => 0
  | check test _ :: rest =>
      (if test value then 0 else 1) + violatedRuleSteps rest value
  | standard test _ :: rest =>
      (if forallb test (elements value) then 0 else 1)
      + violatedRuleSteps rest value
  | sanitize f :: rest => violatedRuleSteps rest (f value)
  end.

Definition violatedRules (chains : list Chain) (req : Request) : nat :=
  list_sum
    (map (fun c =>
            let value := select (path c) (part (location c) req) in
            if optional c && isUndefined value then 0
            else violatedRuleSteps (steps c) value)
         chains).

(** [sanitizers.isValidObjectId]: [/^[0-9a-fA-F]{24}$/] on a string. *)
Definition isHexDigit (c : ascii) : bool :=
  let n := nat_of_ascii c in
  ((48 <=? n) && (n <=? 57) || (97 <=? n) && (n <=? 102)
   || (65 <=? n) && (n <=? 70))%nat.

Definition isValidObjectId (id : string) : bool :=
  (String.length id =? 24)%nat
  && forallb isHexDigit (list_ascii_of_string id).

(** [validations.params.objectId]: the route parameter [id] is text; the
    sanitizer that follows the validator does not change what is
    reported. *)
Definition params_objectId (sanitizeString : Value -> Value) : list Chain :=
  [ mkChain params ["id"] false
      [ check (fun v => match v with
                        | Str s => isValidObjectId s
                        | _ => false
                        end)
              "Invalid ID format";
        sanitize sanitizeString ] ].

End Validation.

(** ** Responses *)

Record Pagination : Type := mkPagination {
  current : Z;
  pages : option Z;
  total : nat
}.

Inductive Payload : Type :=
| NoData
| PlotData (plot : Plot.t)
| PlotList (plots : list Plot.t)
| ColonyData (colony : Colony.t)
| ColonyList (colonies : list Colony.t) (pagination : Pagination)
| PropertyList (properties : list Property.t)
| ValidationErrors (errors : list Validation.ErrorDetail) (timestamp : string).

(** What [res.status(code).json(...)] sends: the status code, [success],
    the optional [message], the data and, beside the data, the optional
    pagination block. *)
Record Response : Type := mkResponse {
  statusCode : nat;
  success : bool;
  message : option string;
  data : Payload;
  pagination_ : option Pagination
}.

(** [res.status(code).json({ success: false, message })] *)
Definition sendFailure (code : nat) (msg : string) : Response :=
  mkResponse code false (Some msg) NoData None.

(** [res.status(code).json({ success: true, message, data })] *)
Definition sendJson (code : nat) (msg : string) (d : Payload) : Response :=
  mkResponse code true (Some msg) d None.

(** Modelled from the spec: [sendSuccess] of middleware/responseHandler.js,
    which is not among the sources; section 4.5 gives the envelope of a
    successful operation as success, optional message and data. *)
Definition sendSuccess (code : nat) (msg : string) (d : Payload) : Response :=
  mkResponse code true (Some msg) d None.

(** Modelled from the spec: [sendPaginated] of middleware/responseHandler.js,
    which is not among the sources; section 4.5 has list operations carry
    the pagination block in addition to the envelope. *)
Definition sendPaginated (code : nat) (msg : string) (d : Payload)
           (p : Pagination) : Response :=
  mkResponse code true (Some msg) d (Some p).

(** A request handler: the response and the database it leaves. *)
Definition Handler : Type := Db -> Response * Db.

(** [handleValidationErrors]: with errors, the response is sent and [next]
    is not called; without, [next] runs. *)
Definition handleValidationErrors (errors : list Validation.FieldError)
           (now : string) (next : Handler) : Handler :=
  fun db =>
    match errors with
    | [] => next db
    | _ :: _ =>
        let errorDetails := map Validation.errorDetail errors in
        (mkResponse 400 false (Some "Validation failed")
                    (ValidationErrors errorDetails now) None,
         db)
    end.

(** A route whose handler sits behind validation chains and
    [handleValidationErrors]. *)
Definition validatedRoute (chains : list Validation.Chain)
           (handler : Validation.Request -> Handler)
           (req : Validation.Request) (now : string) : Handler :=
  handleValidationErrors (Validation.validationResult chains req) now
                         (handler req).

(** ** Pagination of list responses *)

(** [Math.ceil(total / limit)]; [None] when the quotient is not finite
    (a limit of 0), which the response serialises as null. *)
Definition pageCount (total : nat) (limit : Z) : option Z :=
  if (limit =? 0)%Z then None
  else Some (Qceiling (inject_Z (Z.of_nat total) / inject_Z limit)).

Definition pagination (page limit : Z) (total : nat) : Pagination :=
  mkPagination page (pageCount total limit) total.

(** [.limit(limit).skip(skip)] on a result list: a limit of 0 is no limit,
    a negative limit counts as its absolute value. *)
Definition slice {A} (limit skip : Z) (docs : list A) : list A :=
  let rest := skipn (Z.to_nat skip) docs in
  if (limit =? 0)%Z then rest else firstn (Z.abs_nat limit) rest.

(** ** The plot routes *)

Module PlotRoutes.

(** GET /plots.  [page] and [limit] are the numbers the query string
    gives (1 and 10 when absent); [filter] is the query built from
    [colony], [status] and [search]; newest documents come first; the store
    refuses a negative skip. *)
Definition listPlots (page limit : Z) (filter : Plot.t -> bool) : Handler :=
  fun db =>
    if ((page - 1) * limit <? 0)%Z then (sendFailure 500 "Server error", db)
    else
      let plots :=
        slice limit ((page - 1) * limit) (rev (PlotQuery.find filter db)) in
      let total := PlotQuery.countDocuments filter db in
      (sendPaginated 200 "Plots fetched" (PlotList plots)
                     (pagination page limit total),
       db).

(** [{ ...req.body, createdBy: req.user._id }] *)
Definition plotData (user : ObjectId) (body : Plot.fields) : Plot.fields :=
  Plot.mkFields (Plot.f_plotNumber body) (Plot.f_colony body)
                (Plot.f_area body) (Plot.f_pricePerSqFt body)
                (Plot.f_totalPrice body) (Plot.f_status body)
                (Plot.f_corner body) (Plot.f_facing body)
                (Plot.f_roadWidth body) (Some user).

(** The duplicate check of POST /plots.  The number reaches the handler
    trimmed by the sanitizers in front of it, so the schema's own trimming
    leaves it as it is and the stored numbers are compared as text. *)
Definition existingPlot (body : Plot.fields) (db : Db) : option Plot.t :=
  match Plot.f_plotNumber body, Plot.f_colony body with
  | Some n, Some c =>
      PlotQuery.findOne (PlotQuery.byNumberAndColony n c) db
  | _, _ => None
  end.

(** POST /plots, behind authorisation, sanitisation and validation.
    [newId] is the identifier the store gives the new document. *)
Definition createPlot (user newId : ObjectId) (body : Plot.fields) : Handler :=
  fun db =>
    match
      match Plot.f_colony body with
      | Some c => ColonyModel.findById c db
      | None => None
      end
    with
    | None => (sendFailure 400 "Colony not found", db)
    | Some _ =>
        match existingPlot body db with
        | Some _ =>
            (sendFailure 400 "Plot number already exists in this colony", db)
        | None =>
            match PlotModel.create newId (plotData user body) db with
            | (Ok plot, db') =>
                (sendSuccess 201 "Plot created successfully" (PlotData plot),
                 db')
            | (Err _, db') => (sendFailure 500 "Server error", db')
            end
        end
    end.

(** PUT /plots/:id *)
Definition updatePlot (id : ObjectId) (body : Plot.fields) : Handler :=
  fun db =>
    match PlotModel.findByIdAndUpdate id body db with
    | (Ok (Some plot), db') =>
        (sendSuccess 200 "Plot updated successfully" (PlotData plot), db')
    | (Ok None, db') => (sendFailure 404 "Plot not found", db')
    | (Err _, db') => (sendFailure 500 "Server error", db')
    end.

(** DELETE /plots/:id *)
Definition deletePlot (id : ObjectId) : Handler :=
  fun db =>
    match PlotQuery.findById id db with
    | None => (sendFailure 404 "Plot not found", db)
    | Some plot =>
        if PlotStatus_eqb (Plot.status plot) sold then
          (sendFailure 400 "Cannot delete sold plot", db)
        else
          match PlotModel.deleteOne plot db with
          | (Ok _, db') =>
              (sendSuccess 200 "Plot deleted successfully" NoData, db')
          | (Err _, db') => (sendFailure 500 "Server error", db')
          end
    end.

End PlotRoutes.

(** ** The colony routes *)

Module ColonyRoutes.

(** GET /colonies *)
Definition listColonies (page limit : Z) (filter : Colony.t -> bool)
  : Handler :=
  fun db =>
    if ((page - 1) * limit <? 0)%Z then (sendFailure 500 "Server error", db)
    else
      let found :=
        slice limit ((page - 1) * limit)
              (rev (List.filter filter (colonies db))) in
      let total := ColonyModel.countDocuments filter db in
      (mkResponse 200 true None
                  (ColonyList found (pagination page limit total)) None,
       db).

(** [{ ...req.body, createdBy: req.user._id }] *)
Definition colonyData (user : ObjectId) (body : Colony.fields)
  : Colony.fields :=
  Colony.mkFields (Colony.f_name body) (Colony.f_address body)
                  (Colony.f_city body) (Colony.f_totalArea body)
                  (Colony.f_totalPlots body) (Colony.f_availablePlots body)
                  (Colony.f_soldPlots body) (Colony.f_blockedPlots body)
                  (Colony.f_pricePerSqFt body) (Colony.f_status body)
                  (Some user).

(** POST /colonies, behind its validators. *)
Definition createColony (user newId : ObjectId) (body : Colony.fields)
  : Handler :=
  fun db =>
    match ColonyModel.create newId (colonyData user body) db with
    | (Ok colony, db') =>
        (sendJson 201 "Colony created successfully" (ColonyData colony),
         db')
    | (Err _, db') => (sendFailure 500 "Server error", db')
    end.

(** PUT /colonies/:id *)
Definition updateColony (id : ObjectId) (body : Colony.fields) : Handler :=
  fun db =>
    match ColonyModel.findByIdAndUpdate id body db with
    | (Ok (Some colony), db') =>
        (sendJson 200 "Colony updated successfully" (ColonyData colony),
         db')
    | (Ok None, db') => (sendFailure 404 "Colony not found", db')
    | (Err _, db') => (sendFailure 500 "Server error", db')
    end.

End ColonyRoutes.

(** ** The property routes *)

Module PropertyRoutes.

(** GET /properties on the property collection.  [filter] is the query
    built from [colony] and [status]; newest documents come first, the
    documents they refer to are shown by their identifiers, and the answer
    is [{ success: true, data: { properties } }]. *)
Definition listProperties (filter : Property.t -> bool)
           (stored : list Property.t) : Response :=
  mkResponse 200 true None
             (PropertyList (rev (List.filter filter stored))) None.

End PropertyRoutes.

(** A response carries a pagination block beside its data or inside it. *)
Definition carriesPagination (r : Response) : bool :=
  match pagination_ r, data r with
  | Some _, _ => true
  | None, ColonyList _ _ => true
  | None, _ => false
  end.

(** The counter recompute for a colony identifier, as the Plot middleware
    performs it: load the colony, then [updatePlotCounts]. *)
Definition recompute (c : ObjectId) : M unit :=
  colony <- query (ColonyModel.findById c) ;;
  match colony with
  | Some colony => _ <- ColonyModel.updatePlotCounts colony ;; ret tt
  | None => ret tt
  end.

(** ** Scenario definitions *)

(** The two requests that add or remove a plot. *)
Inductive PlotWrite : Type :=
| CreatePlot (user newId : ObjectId) (body : Plot.fields)
| DeletePlot (id : ObjectId).

Definition runWrite (w : PlotWrite) : Handler :=
  match w with
  | CreatePlot user newId body => PlotRoutes.createPlot user newId body
  | DeletePlot id => PlotRoutes.deletePlot id
  end.

(** The price the pre-save middleware leaves on a validated document. *)
Definition priced (doc : Plot.t) : Plot.t :=
  Plot.mk (Plot._id doc) (Plot.plotNumber doc) (Plot.colony doc)
          (Plot.area doc) (Plot.pricePerSqFt doc)
          (if Js.truthy (Plot.area doc) && Js.truthy (Plot.pricePerSqFt doc)
           then (Plot.area doc * Plot.pricePerSqFt doc)%Q
           else Plot.totalPrice doc)
          (Plot.status doc) (Plot.corner doc) (Plot.facing doc)
          (Plot.roadWidth doc) (Plot.createdBy doc).

(** The reading under which the counters never come from the caller: a
    colony created through POST /colonies has all four counters at 0. *)
Definition countersNeverFromCaller : Prop :=
  forall (user newId : ObjectId) (body : Colony.fields) (db db' : Db)
         (colony : Colony.t),
    ColonyRoutes.createColony user newId body db
    = (sendJson 201 "Colony created successfully" (ColonyData colony), db')
    -> Colony.counters colony = (0, 0, 0, 0)%Z.


(** A request body for a new colony that claims seven plots. *)
Definition bodyWithSevenPlots : Colony.fields :=
  Colony.mkFields (Some "Green Park") (Some "Ring Road") None None
                  (Some 7%Z) None None None None None None.

(** ** A small database for the scenarios *)

Module Sample.

Definition admin : ObjectId := "650000000000000000000001".
Definition greenParkId : ObjectId := "65000000000000000000000a".
Definition lakeViewId : ObjectId := "65000000000000000000000b".
Definition plot1Id : ObjectId := "650000000000000000000101".
Definition plot2Id : ObjectId := "650000000000000000000102".

(** A colony as POST /colonies stores it when no counter is supplied. *)
Definition greenPark : Colony.t :=
  Colony.mk greenParkId "Green Park" "Ring Road" None None
            0 0 0 0 None planning admin.

Definition lakeView : Colony.t :=
  Colony.mk lakeViewId "Lake View" "Lake Road" None None
            0 0 0 0 None planning admin.

(** The body of a request creating plot A-1; the caller's total price is
    not the product. *)
Definition bodyA1 (colony : ObjectId) : Plot.fields :=
  Plot.mkFields (Some "A-1") (Some colony) (Some 50%Q) (Some 100%Q)
                (Some 1%Q) None None (Some east) None None.

(** Two colonies, no plot. *)
Definition empty : Db := mkDb [] [greenPark; lakeView].

(** The database after plot A-1 was created in Green Park. *)
Definition withA1 : Db :=
  snd (PlotRoutes.createPlot admin plot1Id (bodyA1 greenParkId) empty).

(** An update that carries only the named paths. *)
Definition onlyStatus (s : PlotStatus) : Plot.fields :=
  Plot.mkFields None None None None None (Some s) None None None None.

Definition onlyAreaAndPrice (a p : Q) : Plot.fields :=
  Plot.mkFields None None (Some a) (Some p) None None None None None None.

End Sample.

(** * More of the code *)

(** ** utils/validation.js: [sanitizeString] and [sanitizeRequest] *)

Module RequestSanitizer.

Import Js.

(** [validator.escape(validator.trim(str))] *)
Definition sanitizeText (s : string) : string :=
  ValidatorJs.escape (ValidatorJs.trim s).

(** [sanitizers.sanitizeString] *)
Definition sanitizeString (str : Value) : Value :=
  match str with
  | Str s => Str (sanitizeText s)
  | _ => str
  end.

(** [sanitized[key] = value] on the object built so far: an own key keeps
    its place and takes the value, a new key goes last, and the key
    [__proto__] defines no own property. *)
Fixpoint assignKey (key : string) (value : Value)
         (sanitized : list (string * Value)) : list (string * Value) :=
  match sanitized with
  | [] => [(key, value)]
  | (k, v) :: rest =>
      if String.eqb k key then (k, value) :: rest
      else (k, v) :: assignKey key value rest
  end.

Definition setProperty (sanitized : list (string * Value))
           (e : string * Value) : list (string * Value) :=
  if String.eqb (fst e) "__proto__" then sanitized
  else assignKey (fst e) (snd e) sanitized.

(** [sanitizeObject] of [sanitizeRequest]: arrays are mapped, objects are
    rebuilt entry by entry with their string values sanitized and the other
    values walked, anything else is returned as it is. *)
Fixpoint sanitizeObject (obj : Value) : Value :=
  match obj with
  | Arr items => Arr (map sanitizeObject items)
  | Obj entries =>
      Obj (fold_left setProperty
             (map (fun e =>
                     match e with
                     | (key, value) =>
                         (key,
                          match value with
                          | Str s => Str (sanitizeText s)
                          | _ => sanitizeObject value
                          end)
                     end)
                  entries)
             [])
  | _ => obj
  end.

(** [if (req.body)]: the body is sanitized when it is truthy. *)
Definition truthyValue (v : Value) : bool :=
  match v with
  | Undefined | Null => false
  | Boolean b => b
  | Number q => Js.truthy q
  | Str s => negb (String.eqb s "")
  | Arr _ | Obj _ => true
  end.

(** [sanitizeRequest]: the body the next middleware sees. *)
Definition sanitizeRequest (req : Validation.Request) : Validation.Request :=
  if truthyValue (Validation.req_body req) then
    Validation.mkRequest (sanitizeObject (Validation.req_body req))
                         (Validation.req_params req)
                         (Validation.req_query req)
  else req.

End RequestSanitizer.

(** ** utils/validation.js: two of the validation rules *)

Module Rules.

Import Js.

(** The class [[A-Za-z0-9\-\/\s]] of the plot number rule. *)
Definition plotNumberChar (c : ascii) : bool :=
  let n := nat_of_ascii c in
  ((65 <=? n) && (n <=? 90) || (97 <=? n) && (n <=? 122)
   || (48 <=? n) && (n <=? 57) || (n =? 45) || (n =? 47))%nat
  || ValidatorJs.isWhitespace c.

(** [/^[A-Za-z0-9\-\/\s]+$/.test(s)] *)
Definition plotNumberPattern (s : string) : bool :=
  negb (String.eqb s "")
  && forallb plotNumberChar (list_ascii_of_string s).

(** The [phone] chain of [validations.user.register]: optional, a custom
    validator that asks [sanitizePhone] for a non-null result, and
    [sanitizePhone] as the sanitizer. *)
Definition register_phone : Validation.Chain :=
  Validation.mkChain Validation.body ["phone"] true
    [ Validation.check
        (fun value =>
           match Sanitizers.sanitizePhone value with
           | Some _ => true
           | None => false
           end)
        "Please provide a valid phone number";
      Validation.sanitize
        (fun value =>
           match Sanitizers.sanitizePhone value with
           | Some phone => Str phone
           | None => Null
           end) ].

(** [isIn(words)] on the text of a value, for words that are not empty,
    hold no comma and are not the text of a number, of a boolean or of an
    object: a string is its own text, an array prints as its elements
    separated by commas, and nothing else prints as such a word. *)
Fixpoint isIn (words : list string) (v : Value) : bool :=
  match v with
  | Str s => existsb (String.eqb s) words
  | Arr [x] => isIn words x
  | _ => false
  end.

(** The [status] chain of [validations.plot.update]. *)
Definition plot_update_status : Validation.Chain :=
  Validation.mkChain Validation.body ["status"] true
    [ Validation.standard
        (isIn ["available"; "blocked"; "sold"; "reserved"])
        "Invalid plot status";
      Validation.sanitize RequestSanitizer.sanitizeString ].

(** [validations.plot.update]: four optional chains on the body.  The links
    of the first three ([trim], [isLength], [matches], [isNumeric],
    [isFloat] and their sanitizers) are left open. *)
Definition plot_update (plotNumber area pricePerSqFt : list Validation.Step)
  : list Validation.Chain :=
  [ Validation.mkChain Validation.body ["plotNumber"] true plotNumber;
    Validation.mkChain Validation.body ["area"] true area;
    Validation.mkChain Validation.body ["pricePerSqFt"] true pricePerSqFt;
    plot_update_status ].

End Rules.

(** ** The plot routes behind their validators *)

Module PlotRouter.

Import Js Validation.

(** The chains in front of PUT /plots/:id: [validations.params.objectId]
    and [validations.plot.update]. *)
Definition putPlotChains (plotNumber area pricePerSqFt : list Step)
  : list Chain :=
  (params_objectId RequestSanitizer.sanitizeString
   ++ Rules.plot_update plotNumber area pricePerSqFt)%list.

(** PUT /plots/:id for an authorized caller: [sanitizeRequest] rewrites the
    body, the chains run, and [handleValidationErrors] answers or lets the
    handler run. *)
Definition putPlot (plotNumber area pricePerSqFt : list Step)
           (handler : Request -> Handler) (req : Request) (now : string)
  : Handler :=
  validatedRoute (putPlotChains plotNumber area pricePerSqFt) handler
                 (RequestSanitizer.sanitizeRequest req) now.

(** GET /plots/colony/:colonyId: [validations.params.objectId], the chains
    of [validations.query.plotFilters], [handleValidationErrors], then the
    handler.  The only parameter of the route is [colonyId]. *)
Definition getPlotsByColony (plotFilters : list Chain)
           (handler : Request -> Handler) (colonyId : string)
           (body query : Value) (now : string) : Handler :=
  validatedRoute
    (params_objectId RequestSanitizer.sanitizeString ++ plotFilters)%list
    handler
    (mkRequest body (Obj [("colonyId", Str colonyId)]) query) now.

End PlotRouter.

(** The reading under which a refused request carries one record for each
    rule it violates, at PUT /plots/:id. *)
Definition oneRecordPerRule : Prop :=
  forall (plotNumber area pricePerSqFt : list Validation.Step)
         (req : Validation.Request),
    let chains := PlotRouter.putPlotChains plotNumber area pricePerSqFt in
    let sanitized := RequestSanitizer.sanitizeRequest req in
    List.length (Validation.validationResult chains sanitized)
    = Validation.violatedRules chains sanitized.

(** ** The remaining plot and colony routes *)

Module MoreRoutes.

(** GET /plots/:id, behind its validators. *)
Definition getPlot (id : ObjectId) : Handler :=
  fun db =>
    match PlotQuery.findById id db with
    | None => (sendFailure 404 "Plot not found", db)
    | Some plot => (sendSuccess 200 "Plot fetched" (PlotData plot), db)
    end.

(** GET /colonies/:id *)
Definition getColony (id : ObjectId) : Handler :=
  fun db =>
    match ColonyModel.findById id db with
    | None => (sendFailure 404 "Colony not found", db)
    | Some colony =>
        (mkResponse 200 true None (ColonyData colony) None, db)
    end.

(** [colony.deleteOne()]: the colony schema registers no middleware. *)
Definition deleteOne (this : Colony.t) : M unit :=
  write (fun db =>
           mkDb (plots db)
                (filter (fun c =>
                           negb (String.eqb (Colony._id c) (Colony._id this)))
                        (colonies db))).

(** DELETE /colonies/:id *)
Definition deleteColony (id : ObjectId) : Handler :=
  fun db =>
    match ColonyModel.findById id db with
    | None => (sendFailure 404 "Colony not found", db)
    | Some colony =>
        let plotCount := PlotQuery.countDocuments (PlotQuery.byColony id) db in
        if (0 <? plotCount)%nat then
          (sendFailure 400 "Cannot delete colony with existing plots", db)
        else
          match deleteOne colony db with
          | (Ok _, db') =>
              (mkResponse 200 true (Some "Colony deleted successfully")
                          NoData None,
               db')
          | (Err _, db') => (sendFailure 500 "Server error", db')
          end
    end.

End MoreRoutes.

(** The requests that write to the plot and colony collections. *)
Inductive WriteRequest : Type :=
| PostPlot (user newId : ObjectId) (body : Plot.fields)
| PutPlot (id : ObjectId) (body : Plot.fields)
| DeletePlotById (id : ObjectId)
| PostColony (user newId : ObjectId) (body : Colony.fields)
| PutColony (id : ObjectId) (body : Colony.fields)
| DeleteColonyById (id : ObjectId).

Definition handle (r : WriteRequest) : Handler :=
  match r with
  | PostPlot user newId body => PlotRoutes.createPlot user newId body
  | PutPlot id body => PlotRoutes.updatePlot id body
  | DeletePlotById id => PlotRoutes.deletePlot id
  | PostColony user newId body => ColonyRoutes.createColony user newId body
  | PutColony id body => ColonyRoutes.updateColony id body
  | DeleteColonyById id => MoreRoutes.deleteColony id
  end.

(** A plot update that carries a plot number or a colony. *)
Definition rekeysPlot (r : WriteRequest) : bool :=
  match r with
  | PutPlot _ body =>
      match Plot.f_plotNumber body, Plot.f_colony body with
      | None, None => false
      | _, _ => true
      end
  | _ => false
  end.

(** The number of a plot together with its colony. *)
Definition numberKey (p : Plot.t) : string * ObjectId :=
  (Plot.plotNumber p, Plot.colony p).

(** No two plots of the database share number and colony. *)
Definition numbersUnique (db : Db) : Prop :=
  NoDup (map numberKey (plots db)).

(** Every plot of the database references a stored colony. *)
Definition referencesIntact (db : Db) : Prop :=
  forall p, In p (plots db) ->
            ColonyModel.findById (Plot.colony p) db <> None.

(** No two plots of the database share their identifier. *)
Definition plotIdsUnique (db : Db) : Prop :=
  NoDup (map Plot._id (plots db)).

(** ** The City model and the seeding of cities *)

Module City.

(** The city schema: [name] and [state] required, [country] defaulting to
    India, [isActive] to true. *)
Record t : Type := mk {
  _id : ObjectId;
  name : string;
  state : string;
  country : string;
  pincode : option string;
  isActive : bool;
  coordinates : option (Q * Q)
}.

(** The data of a seeded city: [{ name, state, country }]. *)
Record seed : Type := mkSeed {
  s_name : string;
  s_state : string;
  s_country : string
}.

End City.

Module Seed.

(** The five cities of [initCities]. *)
Definition cities : list City.seed :=
  [ City.mkSeed "Mumbai" "Maharashtra" "India";
    City.mkSeed "Pune" "Maharashtra" "India";
    City.mkSeed "Nashik" "Maharashtra" "India";
    City.mkSeed "Nagpur" "Maharashtra" "India";
    City.mkSeed "Aurangabad" "Maharashtra" "India" ].

(** Name and state of a stored city and of seed data. *)
Definition cityKey (c : City.t) : string * string :=
  (City.name c, City.state c).

Definition seedKey (s : City.seed) : string * string :=
  (City.s_name s, City.s_state s).

(** The filter [{ name, state }]. *)
Definition byNameAndState (name state : string) (c : City.t) : bool :=
  String.eqb (City.name c) name && String.eqb (City.state c) state.

(** [City.findOne({ name, state })] *)
Definition findOne (name state : string) (stored : list City.t)
  : option City.t :=
  List.find (byNameAndState name state) stored.

(** [City.create(cityData)] for seed data, whose name and state are present
    and trimmed: the document with the schema defaults goes last. *)
Definition create (id : ObjectId) (cityData : City.seed)
           (stored : list City.t) : list City.t :=
  stored ++ [City.mk id (City.s_name cityData) (City.s_state cityData)
                     (City.s_country cityData) None true None].

(** One turn of the loop of [initCities]: the city is created unless one
    with its name and state exists.  [newId] gives the identifier the store
    assigns to a document added to the collection. *)
Definition initCity (newId : list City.t -> ObjectId)
           (stored : list City.t) (cityData : City.seed) : list City.t :=
  match findOne (City.s_name cityData) (City.s_state cityData) stored with
  | None => create (newId stored) cityData stored
  | Some _ => stored
  end.

(** The loop of [initCities] over a list of city data. *)
Definition initCitiesFrom (newId : list City.t -> ObjectId)
           (data : list City.seed) (stored : list City.t) : list City.t :=
  fold_left (initCity newId) data stored.

(** [initCities] *)
Definition initCities (newId : list City.t -> ObjectId)
           (stored : list City.t) : list City.t :=
  initCitiesFrom newId cities stored.

End Seed.

(** * Properties *)

(** ** Equality of statuses *)

Lemma PlotStatus_eqb_eq (a b : PlotStatus) :
  PlotStatus_eqb a b = true <-> a = b.
Proof. destruct a, b; simpl; split; congruence. Qed.

(** ** Properties of the sanitizers *)

Module SanitizersFacts.

Import Js Sanitizers.

(** The extraction keeps exactly the digits, in their order. *)
Lemma removeNonDigits_filter (s : string) :
  list_ascii_of_string (removeNonDigits s)
  = filter isDigit (list_ascii_of_string s).
Proof.
  induction s as [|c rest IH]; simpl; [reflexivity|].
  destruct (isDigit c); simpl; now rewrite IH.
Qed.

Lemma removeNonDigits_all_digits (s : string) :
  Forall (fun c => isDigit c = true)
         (list_ascii_of_string (removeNonDigits s)).
Proof.
  rewrite removeNonDigits_filter. apply Forall_forall.
  intros c Hc. now apply filter_In in Hc.
Qed.

(** Extraction distributes over concatenation. *)
Lemma removeNonDigits_app (s t : string) :
  removeNonDigits (s ++ t) = removeNonDigits s ++ removeNonDigits t.
Proof.
  induction s as [|c rest IH]; simpl; [reflexivity|].
  destruct (isDigit c); simpl; now rewrite IH.
Qed.

(** Extraction is a projection: a second pass changes nothing. *)
Lemma removeNonDigits_idem (s : string) :
  removeNonDigits (removeNonDigits s) = removeNonDigits s.
Proof.
  induction s as [|c rest IH]; simpl; [reflexivity|].
  destruct (isDigit c) eqn:Hc; simpl; [rewrite Hc, IH|]; easy.
Qed.

Lemma Some_inj {A} (x y : A) : Some x = Some y -> x = y.
Proof. congruence. Qed.

Lemma length_app (s t : string) :
  String.length (s ++ t) = (String.length s + String.length t)%nat.
Proof. induction s; simpl; congruence. Qed.

(** C8. Phone sanitization follows the rule of the specification: the
    digits are extracted; exactly ten digits give "+91" and the digits;
    otherwise ten to fifteen digits give "+" and the digits; anything else
    is rejected with null.  The three documented examples evaluate as
    stated. *)
Theorem sanitizePhone_rule :
  (forall s : string, phoneRule s (sanitizePhone (Str s)))
  /\ sanitizePhone (Str "9876543210") = Some "+919876543210"
  /\ sanitizePhone (Str "12345") = None
  /\ sanitizePhone (Str "+14155552671") = Some "+14155552671".
Proof.
  split; [|repeat split; reflexivity].
  intros s. unfold sanitizePhone.
  destruct (String.length (removeNonDigits s) =? 10)%nat eqn:E10.
  - apply Nat.eqb_eq in E10. now constructor.
  - apply Nat.eqb_neq in E10.
    destruct ((10 <=? _)%nat && (_ <=? 15)%nat) eqn:Erange.
    + apply andb_true_iff in Erange as [Hlo Hhi].
      apply Nat.leb_le in Hlo, Hhi. now constructor.
    + constructor. intros [Hlo Hhi].
      apply Nat.leb_le in Hlo, Hhi. rewrite Hlo, Hhi in Erange. discriminate.
Qed.

(** What the extraction finds in an accepted result. *)
Lemma removeNonDigits_prefixed (d : string) :
  removeNonDigits d = d ->
  removeNonDigits ("+91" ++ d) = "91" ++ d
  /\ removeNonDigits ("+" ++ d) = d.
Proof.
  intros Hd. rewrite !removeNonDigits_app, Hd. split; reflexivity.
Qed.

(** C10. Phone sanitization is idempotent on what it accepts. *)
Theorem sanitizePhone_idempotent (s r : string) :
  sanitizePhone (Str s) = Some r ->
  sanitizePhone (Str r) = Some r.
Proof.
  unfold sanitizePhone.
  destruct (removeNonDigits_prefixed _ (removeNonDigits_idem s)) as [H91 Hplus].
  destruct (String.length (removeNonDigits s) =? 10)%nat eqn:E10.
  - intros Hr. apply Some_inj in Hr. subst r. apply Nat.eqb_eq in E10.
    rewrite H91, length_app, E10. reflexivity.
  - destruct ((10 <=? _)%nat && (_ <=? 15)%nat) eqn:Erange; [|discriminate].
    intros Hr. apply Some_inj in Hr. subst r.
    rewrite Hplus, E10, Erange. reflexivity.
Qed.

Lemma sanitizePhone_idempotent_witness :
  sanitizePhone (Str "9876543210") = Some "+919876543210"
  /\ sanitizePhone (Str "+919876543210") = Some "+919876543210".
Proof.
  split; [reflexivity|].
  apply (sanitizePhone_idempotent "9876543210"). reflexivity.
Defined.

End SanitizersFacts.


(** ** Counting plots by status *)

Section Counting.

Import ColonyModel.

Lemma countStatus_nonneg (s : PlotStatus) (l : list Plot.t) :
  (0 <= countStatus s l)%Z.
Proof. unfold countStatus. lia. Qed.

(** Every plot falls in exactly one of the four statuses. *)
Lemma length_by_status (l : list Plot.t) :
  Z.of_nat (List.length l)
  = (countStatus available l + countStatus sold l + countStatus blocked l
     + countStatus reserved l)%Z.
Proof.
  unfold countStatus.
  induction l as [|p l IH]; [reflexivity|].
  cbn [filter]. destruct (Plot.status p);
    cbn [PlotStatus_eqb List.length]; rewrite ?Nat2Z.inj_succ; lia.
Qed.

(** A status count is positive exactly when some plot has that status. *)
Lemma countStatus_pos (s : PlotStatus) (l : list Plot.t) :
  (0 < countStatus s l)%Z <-> exists p, In p l /\ Plot.status p = s.
Proof.
  unfold countStatus. split.
  - intros Hpos.
    destruct (filter (fun plot => PlotStatus_eqb (Plot.status plot) s) l)
      as [|p rest] eqn:E; [simpl in Hpos; lia|].
    assert (Hin : In p (filter (fun plot => PlotStatus_eqb (Plot.status plot) s) l))
      by (rewrite E; now left).
    apply filter_In in Hin as [Hin Hs].
    exists p. split; [assumption|]. now apply PlotStatus_eqb_eq.
  - intros (p & Hin & Hs).
    assert (Hf : In p (filter (fun plot => PlotStatus_eqb (Plot.status plot) s) l)).
    { apply filter_In. split; [assumption|]. now apply PlotStatus_eqb_eq. }
    destruct (filter _ l); [contradiction|]. simpl. lia.
Qed.

End Counting.

(** ** The colony collection *)

Section ColonyStore.

Import ColonyModel.

Lemma findById_id (c : ObjectId) (db : Db) (colony : Colony.t) :
  findById c db = Some colony -> Colony._id colony = c.
Proof.
  unfold findById. intros H. apply find_some in H as [_ H].
  now apply String.eqb_eq.
Qed.

Lemma setCounters_id (n : Z * Z * Z * Z) (colony : Colony.t) :
  Colony._id (Colony.setCounters n colony) = Colony._id colony.
Proof. destruct n as [[[a b] c] d]. reflexivity. Qed.

Lemma setCounters_counters (n : Z * Z * Z * Z) (colony : Colony.t) :
  Colony.counters (Colony.setCounters n colony) = n.
Proof. destruct n as [[[a b] c] d]. reflexivity. Qed.

Lemma setCounters_twice (n m : Z * Z * Z * Z) (colony : Colony.t) :
  Colony.setCounters n (Colony.setCounters m colony)
  = Colony.setCounters n colony.
Proof.
  destruct n as [[[a b] c] d], m as [[[a' b'] c'] d']. reflexivity.
Qed.

(** After a replacement the document is the one found under its [_id]. *)
Lemma findById_replace (doc old : Colony.t) (db : Db) :
  findById (Colony._id doc) db = Some old ->
  findById (Colony._id doc) (replace doc db) = Some doc.
Proof.
  unfold findById, replace. simpl.
  induction (colonies db) as [|x l IH]; simpl; [discriminate|].
  destruct (String.eqb (Colony._id x) (Colony._id doc)) eqn:E.
  - intros _. now rewrite String.eqb_refl.
  - rewrite E. exact IH.
Qed.

(** Replacing twice under one [_id] is replacing once. *)
Lemma replace_replace (doc doc' : Colony.t) (db : Db) :
  Colony._id doc = Colony._id doc' ->
  replace doc (replace doc' db) = replace doc db.
Proof.
  intros Hid. unfold replace. simpl. f_equal.
  rewrite map_map. apply map_ext. intros x. rewrite Hid.
  destruct (String.eqb (Colony._id x) (Colony._id doc')) eqn:E.
  - now rewrite String.eqb_refl.
  - now rewrite E.
Qed.

(** [updatePlotCounts] on a stored colony does not throw, and this is what
    it returns and leaves. *)
Lemma updatePlotCounts_ok (this old : Colony.t) (db : Db) :
  findById (Colony._id this) db = Some old ->
  updatePlotCounts this db
  = (Ok (Colony.setCounters
           (plotCounts (PlotQuery.find (PlotQuery.byColony (Colony._id this)) db))
           this),
     replace (Colony.setCounters
                (plotCounts (PlotQuery.find (PlotQuery.byColony (Colony._id this)) db))
                this)
             db).
Proof.
  intros Hfound.
  unfold updatePlotCounts, bind, query, save, ret.
  rewrite setCounters_id, Hfound. reflexivity.
Qed.

End ColonyStore.

(** ** What the recompute computes *)

Section Recompute.

Import ColonyModel.

(** C1. For a colony identifier [c] whose colony is stored, the recompute
    loads exactly the plots whose colony reference is [c]; it sets
    totalPlots to their number and availablePlots, soldPlots and
    blockedPlots to the numbers of those with status available, sold and
    blocked; it leaves the other paths of the colony as they were and
    persists the document; and the outcome is the same whatever the four
    counters held before. *)
Theorem updatePlotCounts_counts (c : ObjectId) (db : Db) (colony : Colony.t) :
  findById c db = Some colony ->
  let loaded := PlotQuery.find (PlotQuery.byColony c) db in
  (forall p, In p loaded <-> In p (plots db) /\ Plot.colony p = c)
  /\ exists colony' db',
      updatePlotCounts colony db = (Ok colony', db')
      /\ Colony.totalPlots colony' = Z.of_nat (List.length loaded)
      /\ Colony.availablePlots colony'
         = Z.of_nat (List.length
              (filter (fun p => PlotStatus_eqb (Plot.status p) available) loaded))
      /\ Colony.soldPlots colony'
         = Z.of_nat (List.length
              (filter (fun p => PlotStatus_eqb (Plot.status p) sold) loaded))
      /\ Colony.blockedPlots colony'
         = Z.of_nat (List.length
              (filter (fun p => PlotStatus_eqb (Plot.status p) blocked) loaded))
      /\ colony' = Colony.setCounters (Colony.counters colony') colony
      /\ findById c db' = Some colony'
      /\ plots db' = plots db
      /\ forall previous : Z * Z * Z * Z,
          updatePlotCounts (Colony.setCounters previous colony)
                           (replace (Colony.setCounters previous colony) db)
          = (Ok colony', db').
Proof.
  intros Hfound loaded.
  pose proof (findById_id _ _ _ Hfound) as Hid.
  split.
  - intros p. unfold loaded, PlotQuery.find, PlotQuery.byColony.
    rewrite filter_In, String.eqb_eq. reflexivity.
  - subst c.
    pose proof (updatePlotCounts_ok _ _ _ Hfound) as Hrun.
    fold loaded in Hrun.
    eexists. eexists. split; [exact Hrun|].
    repeat (split; [reflexivity|]).
    split.
    { rewrite <- (setCounters_id (plotCounts loaded) colony) at 1.
      apply findById_replace with (old := colony).
      now rewrite setCounters_id. }
    split; [reflexivity|].
    intros previous.
    set (stale := Colony.setCounters previous colony).
    assert (Hstale : Colony._id stale = Colony._id colony)
      by apply setCounters_id.
    assert (Hthere : findById (Colony._id stale) (replace stale db) = Some stale).
    { apply findById_replace with (old := colony). now rewrite Hstale. }
    rewrite (updatePlotCounts_ok _ _ _ Hthere).
    rewrite Hstale.
    change (PlotQuery.find (PlotQuery.byColony (Colony._id colony))
                           (replace stale db)) with loaded.
    unfold stale at 1 2. rewrite setCounters_twice.
    rewrite replace_replace; [reflexivity|].
    now rewrite setCounters_id, Hstale.
Qed.

End Recompute.


(** Plot A-1 is stored with the computed price, and Green Park counts it. *)
Example sample_withA1 :
  PlotQuery.findById Sample.plot1Id Sample.withA1
  = Some (Plot.mk Sample.plot1Id "A-1" Sample.greenParkId 50%Q 100%Q
                  (50 * 100)%Q available false east 0%Q Sample.admin)
  /\ option_map Colony.counters
                (ColonyModel.findById Sample.greenParkId Sample.withA1)
     = Some (1, 1, 0, 0)%Z.
Proof. split; reflexivity. Qed.

Lemma updatePlotCounts_counts_witness :
  ColonyModel.findById Sample.greenParkId Sample.withA1
  = Some (Colony.setCounters (1, 1, 0, 0)%Z Sample.greenPark)
  /\ exists colony' db',
      ColonyModel.updatePlotCounts
        (Colony.setCounters (1, 1, 0, 0)%Z Sample.greenPark) Sample.withA1
      = (Ok colony', db')
      /\ Colony.totalPlots colony' = 1%Z.
Proof.
  split; [reflexivity|].
  destruct (updatePlotCounts_counts Sample.greenParkId Sample.withA1
              (Colony.setCounters (1, 1, 0, 0)%Z Sample.greenPark) eq_refl)
    as (_ & colony' & db' & Hrun & Htotal & _).
  exists colony', db'. split; [exact Hrun|]. rewrite Htotal. reflexivity.
Defined.

(** ** The counters after a plot is created or deleted *)

(** C2. After a plot create or delete has completed, a recompute for a
    stored colony yields totalPlots equal to the number of plots that
    reference the colony, the three status counters sum to at most
    totalPlots, and the sum falls short exactly when some plot of the
    colony is reserved. *)
Theorem counters_after_plot_write
        (w : PlotWrite) (db : Db) (c : ObjectId) (colony : Colony.t) :
  let db1 := snd (runWrite w db) in
  ColonyModel.findById c db1 = Some colony ->
  exists colony' db2,
    ColonyModel.updatePlotCounts colony db1 = (Ok colony', db2)
    /\ ColonyModel.findById c db2 = Some colony'
    /\ Colony.totalPlots colony'
       = Z.of_nat (PlotQuery.countDocuments (PlotQuery.byColony c) db1)
    /\ (Colony.availablePlots colony' + Colony.soldPlots colony'
        + Colony.blockedPlots colony' <= Colony.totalPlots colony')%Z
    /\ ((Colony.availablePlots colony' + Colony.soldPlots colony'
         + Colony.blockedPlots colony' <> Colony.totalPlots colony')%Z
        <-> exists p, In p (plots db1) /\ Plot.colony p = c
                      /\ Plot.status p = reserved).
Proof.
  intros db1 Hfound. clearbody db1.
  pose proof (findById_id _ _ _ Hfound) as Hid. subst c.
  rewrite (updatePlotCounts_ok _ _ _ Hfound).
  set (live := PlotQuery.find (PlotQuery.byColony (Colony._id colony)) db1).
  eexists. eexists. split; [reflexivity|].
  split.
  { rewrite <- (setCounters_id (ColonyModel.plotCounts live) colony) at 1.
    apply findById_replace with (old := colony).
    now rewrite setCounters_id. }
  cbn [ColonyModel.plotCounts Colony.setCounters Colony.totalPlots
       Colony.availablePlots Colony.soldPlots Colony.blockedPlots].
  pose proof (length_by_status live) as Hsum.
  pose proof (countStatus_nonneg reserved live) as Hres.
  split; [reflexivity|]. split; [lia|].
  assert (Hiff : (0 < ColonyModel.countStatus reserved live)%Z
                 <-> exists p, In p (plots db1)
                               /\ Plot.colony p = Colony._id colony
                               /\ Plot.status p = reserved).
  { rewrite countStatus_pos. unfold live, PlotQuery.find, PlotQuery.byColony.
    split; intros (p & Hp & Hs); exists p.
    - apply filter_In in Hp as [Hin Hc]. apply String.eqb_eq in Hc. tauto.
    - destruct Hs as [Hc Hs]. split; [|assumption].
      apply filter_In. split; [assumption|]. now apply String.eqb_eq. }
  rewrite <- Hiff. lia.
Qed.

Lemma counters_after_plot_write_witness :
  ColonyModel.findById Sample.greenParkId
    (snd (runWrite (CreatePlot Sample.admin Sample.plot1Id
                               (Sample.bodyA1 Sample.greenParkId))
                   Sample.empty))
  = Some (Colony.setCounters (1, 1, 0, 0)%Z Sample.greenPark)
  /\ exists colony' db2,
      ColonyModel.updatePlotCounts
        (Colony.setCounters (1, 1, 0, 0)%Z Sample.greenPark)
        (snd (runWrite (CreatePlot Sample.admin Sample.plot1Id
                                   (Sample.bodyA1 Sample.greenParkId))
                       Sample.empty))
      = (Ok colony', db2)
      /\ Colony.totalPlots colony' = 1%Z.
Proof.
  split; [reflexivity|].
  destruct (counters_after_plot_write
              (CreatePlot Sample.admin Sample.plot1Id
                          (Sample.bodyA1 Sample.greenParkId))
              Sample.empty Sample.greenParkId
              (Colony.setCounters (1, 1, 0, 0)%Z Sample.greenPark) eq_refl)
    as (colony' & db2 & Hrun & _ & Htotal & _).
  exists colony', db2. split; [exact Hrun|]. rewrite Htotal. reflexivity.
Defined.

(** ** The Plot middleware at work *)

Section PlotMiddleware.

Import PlotModel.

(** The only pre-save middleware is the price calculation. *)
Lemma runPre_save (data : Plot.fields) :
  runPre Hook.save data = calcTotalPrice data.
Proof. reflexivity. Qed.

(** The post-save middleware is the recompute for the plot's colony; the
    functions [deleteOne] and [findOneAndUpdate] have no middleware. *)
Lemma runPost_save (doc : Plot.t) (db : Db) :
  runPost Hook.save doc db = recompute (Plot.colony doc) db.
Proof. reflexivity. Qed.

Lemma runPost_remove (doc : Plot.t) (db : Db) :
  runPost Hook.remove doc db = recompute (Plot.colony doc) db.
Proof. reflexivity. Qed.

Lemma runPost_deleteOne (doc : Plot.t) (db : Db) :
  runPost Hook.deleteOne doc db = (Ok tt, db).
Proof. reflexivity. Qed.

Lemma runPost_findOneAndUpdate (doc : Plot.t) (db : Db) :
  runPost Hook.findOneAndUpdate doc db = (Ok tt, db).
Proof. reflexivity. Qed.

(** The recompute never throws; it leaves the plots alone and, for a stored
    colony, leaves the counters equal to the counts of its plots. *)
Lemma recompute_ok (c : ObjectId) (db : Db) :
  exists db',
    recompute c db = (Ok tt, db')
    /\ plots db' = plots db
    /\ (forall colony,
          ColonyModel.findById c db = Some colony ->
          ColonyModel.findById c db'
          = Some (Colony.setCounters
                    (ColonyModel.plotCounts
                       (PlotQuery.find (PlotQuery.byColony c) db))
                    colony))
    /\ (ColonyModel.findById c db = None -> db' = db).
Proof.
  unfold recompute, bind, query, ret.
  destruct (ColonyModel.findById c db) as [colony|] eqn:Hfound.
  - pose proof (findById_id _ _ _ Hfound) as Hid. subst c.
    rewrite (updatePlotCounts_ok _ _ _ Hfound).
    eexists. split; [reflexivity|]. split; [reflexivity|].
    split; [|discriminate].
    intros colony' [= <-].
    rewrite <- (setCounters_id
                  (ColonyModel.plotCounts
                     (PlotQuery.find (PlotQuery.byColony (Colony._id colony)) db))
                  colony) at 1.
    apply findById_replace with (old := colony).
    now rewrite setCounters_id.
  - exists db. repeat split; try reflexivity. discriminate.
Qed.

Lemma validate_calcTotalPrice (id : ObjectId) (data : Plot.fields)
      (doc : Plot.t) :
  Plot.validate id data = Ok doc ->
  Plot.validate id (calcTotalPrice data) = Ok (priced doc).
Proof.
  destruct data as [n c a p tp s co fc rw by_].
  unfold Plot.validate, calcTotalPrice, priced, andThen, required,
    requiredString; simpl.
  destruct n as [[|ch n]|]; try discriminate.
  destruct c, a as [a|], p as [p|], tp, fc, by_; try discriminate.
  intros [= <-]. simpl.
  destruct (Js.truthy a && Js.truthy p); reflexivity.
Qed.

(** [Plot.create] on data the schema accepts: the document is stored with
    the price of the pre-save middleware, and the colony is recomputed. *)
Lemma create_ok (id : ObjectId) (data : Plot.fields) (doc : Plot.t)
      (db : Db) :
  Plot.validate id data = Ok doc ->
  create id data db
  = (Ok (priced doc),
     snd (recompute (Plot.colony doc)
                    (mkDb (plots db ++ [priced doc]) (colonies db)))).
Proof.
  intros Hvalid.
  unfold create, bind, lift, write, ret.
  rewrite Hvalid, runPre_save, (validate_calcTotalPrice _ _ _ Hvalid).
  rewrite runPost_save.
  destruct (recompute_ok (Plot.colony (priced doc))
              (mkDb (plots db ++ [priced doc]) (colonies db)))
    as (db' & Hrun & _).
  change (Plot.colony (priced doc)) with (Plot.colony doc) in *.
  rewrite Hrun. reflexivity.
Qed.

(** [Plot.create] on data the schema rejects writes nothing. *)
Lemma create_invalid (id : ObjectId) (data : Plot.fields) (e : StoreError)
      (db : Db) :
  Plot.validate id data = Err e ->
  create id data db = (Err e, db).
Proof.
  intros Hinvalid. unfold create, bind, lift. now rewrite Hinvalid.
Qed.

End PlotMiddleware.

(** ** Which requests trigger the recompute *)

Section Triggers.

Import PlotRoutes.

(** A successful POST /plots leaves the counters of the plot's colony equal
    to the counts of the colony's plots. *)
Lemma createPlot_recomputes (user newId : ObjectId) (body : Plot.fields)
      (db db' : Db) (plot : Plot.t) :
  createPlot user newId body db
  = (sendSuccess 201 "Plot created successfully" (PlotData plot), db') ->
  exists colony,
    ColonyModel.findById (Plot.colony plot) db' = Some colony
    /\ Colony.counters colony
       = ColonyModel.plotCounts
           (PlotQuery.find (PlotQuery.byColony (Plot.colony plot)) db').
Proof.
  unfold createPlot.
  destruct (Plot.f_colony body) as [c|] eqn:Hc; [|discriminate].
  destruct (ColonyModel.findById c db) as [colony|] eqn:Hfound; [|discriminate].
  destruct (existingPlot body db); [discriminate|].
  destruct (Plot.validate newId (plotData user body)) as [doc|e] eqn:Hvalid.
  - rewrite (create_ok _ _ _ _ Hvalid).
    assert (Hdoc : Plot.colony doc = c).
    { revert Hvalid. destruct body as [n c0 a p tp s co fc rw by_].
      simpl in Hc. subst c0.
      unfold Plot.validate, plotData, andThen, required, requiredString; simpl.
      destruct n as [[|ch n]|]; try discriminate.
      destruct a, p, tp, fc; try discriminate. now intros [= <-]. }
    set (db1 := mkDb (plots db ++ [priced doc]) (colonies db)).
    destruct (recompute_ok (Plot.colony doc) db1)
      as (db2 & Hrun & Hplots & Hstored & _).
    rewrite Hrun. simpl. intros [= <- <-].
    change (Plot.colony (priced doc)) with (Plot.colony doc).
    rewrite Hdoc in *.
    exists (Colony.setCounters
              (ColonyModel.plotCounts (PlotQuery.find (PlotQuery.byColony c) db1))
              colony).
    split; [now apply Hstored|].
    rewrite setCounters_counters. unfold PlotQuery.find. now rewrite Hplots.
  - rewrite (create_invalid _ _ _ _ Hvalid). discriminate.
Qed.

(** PUT /plots/:id never touches the colony collection: no recompute
    follows an update, whatever paths it carries. *)
Lemma updatePlot_leaves_colonies (id : ObjectId) (body : Plot.fields)
      (db : Db) :
  colonies (snd (updatePlot id body db)) = colonies db.
Proof.
  unfold updatePlot, PlotModel.findByIdAndUpdate, bind, lift, query, write, ret.
  destruct (PlotModel.validateUpdate body); [|reflexivity].
  destruct (PlotQuery.findById id db); reflexivity.
Qed.

(** DELETE /plots/:id never touches the colony collection either: the
    handler calls [deleteOne], for which the schema registers nothing. *)
Lemma deletePlot_leaves_colonies (id : ObjectId) (db : Db) :
  colonies (snd (deletePlot id db)) = colonies db.
Proof.
  unfold deletePlot.
  destruct (PlotQuery.findById id db) as [plot|]; [|reflexivity].
  destruct (PlotStatus_eqb (Plot.status plot) sold); reflexivity.
Qed.

(** The post-remove middleware does recompute when [remove] is the
    function called. *)
Lemma remove_recomputes (this : Plot.t) (db : Db) :
  PlotModel.remove this db
  = recompute (Plot.colony this) (PlotModel.without this db).
Proof. reflexivity. Qed.

(** C3. The scenario of the specification on the sample database: creating
    plot A-1 recomputes Green Park to (1, 1, 0, 0); updating its status to
    sold leaves the counters as they were although the live counts are now
    (1, 0, 1, 0); deleting plot A-1 (while available) succeeds and removes
    it, and the counters still read (1, 1, 0, 0) although no plot is left:
    no recompute ran after the removal. *)
Theorem deletePlot_counters_stale :
  option_map Colony.counters
             (ColonyModel.findById Sample.greenParkId Sample.withA1)
  = Some (1, 1, 0, 0)%Z
  /\ (let db := snd (updatePlot Sample.plot1Id (Sample.onlyStatus sold)
                                Sample.withA1) in
      option_map Plot.status (PlotQuery.findById Sample.plot1Id db)
      = Some sold
      /\ option_map Colony.counters
                    (ColonyModel.findById Sample.greenParkId db)
         = Some (1, 1, 0, 0)%Z
      /\ ColonyModel.plotCounts
           (PlotQuery.find (PlotQuery.byColony Sample.greenParkId) db)
         = (1, 0, 1, 0)%Z)
  /\ (let out := deletePlot Sample.plot1Id Sample.withA1 in
      fst out = sendSuccess 200 "Plot deleted successfully" NoData
      /\ plots (snd out) = []
      /\ option_map Colony.counters
                    (ColonyModel.findById Sample.greenParkId (snd out))
         = Some (1, 1, 0, 0)%Z
      /\ ColonyModel.plotCounts
           (PlotQuery.find (PlotQuery.byColony Sample.greenParkId) (snd out))
         = (0, 0, 0, 0)%Z).
Proof. repeat split; reflexivity. Qed.

End Triggers.

(** ** The total price *)

Section TotalPrice.

Import PlotRoutes.

(** A successful POST /plots stores the product when area and price per
    square foot are both non-zero, whatever total price the caller sent. *)
Lemma createPlot_totalPrice (user newId : ObjectId) (body : Plot.fields)
      (db db' : Db) (plot : Plot.t) :
  createPlot user newId body db
  = (sendSuccess 201 "Plot created successfully" (PlotData plot), db') ->
  Js.truthy (Plot.area plot) = true ->
  Js.truthy (Plot.pricePerSqFt plot) = true ->
  Plot.totalPrice plot = (Plot.area plot * Plot.pricePerSqFt plot)%Q
  /\ In plot (plots db').
Proof.
  unfold createPlot.
  destruct (match Plot.f_colony body with
            | Some c => ColonyModel.findById c db
            | None => None
            end); [|discriminate].
  destruct (existingPlot body db); [discriminate|].
  destruct (Plot.validate newId (plotData user body)) as [doc|e] eqn:Hvalid.
  - rewrite (create_ok _ _ _ _ Hvalid).
    set (db1 := mkDb (plots db ++ [priced doc]) (colonies db)).
    destruct (recompute_ok (Plot.colony doc) db1) as (db2 & Hrun & Hplots & _).
    rewrite Hrun. simpl. intros [= <- <-]. simpl.
    intros -> ->. simpl. split; [reflexivity|].
    rewrite Hplots. simpl. apply in_or_app. right. now left.
  - rewrite (create_invalid _ _ _ _ Hvalid). discriminate.
Qed.

(** PUT /plots/:id stores the total price the request carries, or keeps the
    stored one: it is never computed. *)
Lemma updatePlot_totalPrice (id : ObjectId) (body : Plot.fields)
      (db db' : Db) (old plot : Plot.t) :
  PlotQuery.findById id db = Some old ->
  updatePlot id body db
  = (sendSuccess 200 "Plot updated successfully" (PlotData plot), db') ->
  Plot.totalPrice plot = assign (Plot.f_totalPrice body) (Plot.totalPrice old).
Proof.
  intros Hold.
  unfold updatePlot, PlotModel.findByIdAndUpdate, bind, lift, query, write, ret.
  destruct (PlotModel.validateUpdate body); [|discriminate].
  rewrite Hold. simpl. now intros [= <- _].
Qed.

(** C4. On the sample database plot A-1 is stored with area 50, price per
    square foot 100 and total price 5000.  An update that supplies area
    100 and price per square foot 200 succeeds, stores both, and the stored
    total price is still 5000, not their product 20000; an update that
    also supplies a total price of 1 stores 1. *)
Theorem updatePlot_totalPrice_stale :
  option_map Plot.totalPrice (PlotQuery.findById Sample.plot1Id Sample.withA1)
  = Some 5000%Q
  /\ (let out := updatePlot Sample.plot1Id
                            (Sample.onlyAreaAndPrice 100%Q 200%Q)
                            Sample.withA1 in
      statusCode (fst out) = 200%nat
      /\ option_map (fun p => (Plot.area p, Plot.pricePerSqFt p,
                               Plot.totalPrice p))
                    (PlotQuery.findById Sample.plot1Id (snd out))
         = Some (100%Q, 200%Q, 5000%Q)
      /\ ~ (5000 == 100 * 200)%Q)
  /\ (let out := updatePlot Sample.plot1Id
                            (Plot.setTotalPrice (Some 1%Q)
                               (Sample.onlyAreaAndPrice 100%Q 200%Q))
                            Sample.withA1 in
      statusCode (fst out) = 200%nat
      /\ option_map Plot.totalPrice
                    (PlotQuery.findById Sample.plot1Id (snd out))
         = Some 1%Q).
Proof. repeat split; try reflexivity. intros H; discriminate H. Qed.

End TotalPrice.

(** ** Who writes the colony counters *)

Section ColonyCounters.

Import ColonyRoutes.

(** POST /colonies with [totalPlots: 7] stores a colony whose totalPlots is
    7 although it has no plot. *)
Lemma createColony_stores_supplied_counter :
  ~ countersNeverFromCaller.
Proof.
  intros Hevery.
  specialize (Hevery Sample.admin Sample.greenParkId bodyWithSevenPlots
                     (mkDb [] []) _ _ eq_refl).
  discriminate Hevery.
Qed.

Lemma createColony_inv (user newId : ObjectId) (body : Colony.fields)
      (db db' : Db) (colony : Colony.t) :
  createColony user newId body db
  = (sendJson 201 "Colony created successfully" (ColonyData colony), db')
  -> Colony.validate newId (colonyData user body) = Ok colony
     /\ db' = mkDb (plots db) (colonies db ++ [colony]).
Proof.
  unfold createColony, ColonyModel.create, bind, lift, write, ret.
  destruct (Colony.validate newId (colonyData user body)) as [doc|e];
    [|discriminate].
  intros [= <- <-]. split; reflexivity.
Qed.

(** A name of spaces passes [notEmpty], is trimmed to nothing by the schema
    and is then refused: the answer is 500 and nothing is stored; a name
    with spaces around it is stored without them. *)
Example createColony_trims_name :
  let named (n : string) :=
    Colony.mkFields (Some n) (Some "Ring Road") None None None None None
                    None None None None in
  createColony Sample.admin Sample.greenParkId (named "   ") (mkDb [] [])
  = (sendFailure 500 "Server error", mkDb [] [])
  /\ createColony Sample.admin Sample.greenParkId (named " Green Park ")
                  (mkDb [] [])
     = (sendJson 201 "Colony created successfully"
                 (ColonyData Sample.greenPark),
        mkDb [] [Sample.greenPark]).
Proof. split; reflexivity. Qed.

(** C5 (amended). A colony created through POST /colonies is stored with
    each counter at the value the request supplies and at 0 when the
    request supplies none, so a request without counters gives (0, 0, 0, 0);
    PUT /colonies/:id stores the counters it supplies and keeps the others;
    and a recompute of a stored colony overwrites all four with the counts
    of the colony's plots, whatever they held. *)
Theorem colony_counters_until_recompute
        (user newId : ObjectId) (body : Colony.fields) (db db' : Db)
        (colony : Colony.t) :
  createColony user newId body db
  = (sendJson 201 "Colony created successfully" (ColonyData colony), db')
  -> Colony.counters colony
     = (withDefault 0%Z (Colony.f_totalPlots body),
        withDefault 0%Z (Colony.f_availablePlots body),
        withDefault 0%Z (Colony.f_soldPlots body),
        withDefault 0%Z (Colony.f_blockedPlots body))
     /\ In colony (colonies db')
     /\ ((Colony.f_totalPlots body, Colony.f_availablePlots body,
          Colony.f_soldPlots body, Colony.f_blockedPlots body)
         = (None, None, None, None)
         -> Colony.counters colony = (0, 0, 0, 0)%Z)
     /\ (forall id update db1 db2 old new,
           ColonyModel.findById id db1 = Some old ->
           updateColony id update db1
           = (sendJson 200 "Colony updated successfully" (ColonyData new),
              db2) ->
           Colony.counters new
           = (assign (Colony.f_totalPlots update) (Colony.totalPlots old),
              assign (Colony.f_availablePlots update)
                     (Colony.availablePlots old),
              assign (Colony.f_soldPlots update) (Colony.soldPlots old),
              assign (Colony.f_blockedPlots update) (Colony.blockedPlots old))
           /\ ColonyModel.findById id db2 = Some new)
     /\ (forall db1 stored,
           ColonyModel.findById (Colony._id colony) db1 = Some stored ->
           exists recomputed db2,
             ColonyModel.updatePlotCounts stored db1 = (Ok recomputed, db2)
             /\ ColonyModel.findById (Colony._id colony) db2 = Some recomputed
             /\ Colony.counters recomputed
                = ColonyModel.plotCounts
                    (PlotQuery.find
                       (PlotQuery.byColony (Colony._id colony)) db1)).
Proof.
  intros Hcreated.
  apply createColony_inv in Hcreated as [Hvalid ->].
  assert (Hcounters :
            Colony.counters colony
            = (withDefault 0%Z (Colony.f_totalPlots body),
               withDefault 0%Z (Colony.f_availablePlots body),
               withDefault 0%Z (Colony.f_soldPlots body),
               withDefault 0%Z (Colony.f_blockedPlots body))).
  { revert Hvalid. destruct body as [n a ci ta tp ap sp bp pr st by_].
    unfold Colony.validate, colonyData, andThen, required. simpl.
    destruct (requiredString "name" _); [|discriminate].
    destruct (requiredString "address" _); [|discriminate].
    now intros [= <-]. }
  split; [exact Hcounters|].
  split; [simpl; apply in_or_app; right; now left|].
  split.
  { intros [= H1 H2 H3 H4]. rewrite Hcounters, H1, H2, H3, H4. reflexivity. }
  split.
  - intros id update db1 db2 old new Hold.
    unfold updateColony, ColonyModel.findByIdAndUpdate, bind, lift, query,
      write, ret.
    destruct (ColonyModel.validateUpdate update); [|discriminate].
    rewrite Hold. simpl. intros [= <- <-].
    split; [reflexivity|].
    pose proof (findById_id _ _ _ Hold) as Hid. subst id.
    change (Colony._id old) with (Colony._id (Colony.set update old)).
    apply findById_replace with (old := old). exact Hold.
  - intros db1 stored Hstored.
    pose proof (findById_id _ _ _ Hstored) as Hid. rewrite <- Hid in *.
    rewrite (updatePlotCounts_ok _ _ _ Hstored).
    eexists. eexists. split; [reflexivity|].
    split; [|apply setCounters_counters].
    rewrite <- (setCounters_id
                  (ColonyModel.plotCounts
                     (PlotQuery.find (PlotQuery.byColony (Colony._id stored)) db1))
                  stored) at 1.
    apply findById_replace with (old := stored).
    now rewrite setCounters_id.
Qed.

Lemma colony_counters_until_recompute_witness :
  createColony Sample.admin Sample.greenParkId bodyWithSevenPlots
               (mkDb [] [])
  = (sendJson 201 "Colony created successfully"
       (ColonyData (Colony.setCounters (7, 0, 0, 0)%Z Sample.greenPark)),
     mkDb [] [Colony.setCounters (7, 0, 0, 0)%Z Sample.greenPark])
  /\ Colony.counters (Colony.setCounters (7, 0, 0, 0)%Z Sample.greenPark)
     = (7, 0, 0, 0)%Z.
Proof.
  split; [reflexivity|].
  exact (proj1 (colony_counters_until_recompute
                  Sample.admin Sample.greenParkId bodyWithSevenPlots
                  (mkDb [] []) _ _ eq_refl)).
Defined.

End ColonyCounters.

(** ** Plot numbers are unique within a colony *)

Section PlotNumbers.

Import PlotRoutes.

(** What the schema accepts carries the request's number and colony. *)
Lemma validate_number_colony (id user : ObjectId) (body : Plot.fields)
      (doc : Plot.t) :
  Plot.validate id (plotData user body) = Ok doc ->
  Plot.f_plotNumber body = Some (Plot.plotNumber doc)
  /\ Plot.f_colony body = Some (Plot.colony doc).
Proof.
  destruct body as [n c a p tp s co fc rw by_].
  unfold Plot.validate, plotData, andThen, required, requiredString; simpl.
  destruct n as [[|ch n]|]; try discriminate.
  destruct c, a, p, tp, fc; try discriminate.
  intros [= <-]. split; reflexivity.
Qed.

(** The duplicate check finds a plot exactly when the colony already has
    one with that number. *)
Lemma existingPlot_found (body : Plot.fields) (db : Db) (n : string)
      (c : ObjectId) :
  Plot.f_plotNumber body = Some n ->
  Plot.f_colony body = Some c ->
  (existingPlot body db <> None
   <-> exists p, In p (plots db) /\ Plot.plotNumber p = n
                 /\ Plot.colony p = c).
Proof.
  intros Hn Hc. unfold existingPlot, PlotQuery.findOne. rewrite Hn, Hc.
  split.
  - destruct (find (PlotQuery.byNumberAndColony n c) (plots db)) as [p|] eqn:E;
      [intros _|congruence].
    apply find_some in E as [Hin Hq].
    apply andb_true_iff in Hq as [H1 H2].
    apply String.eqb_eq in H1, H2. now exists p.
  - intros (p & Hin & Hp & Hpc) E.
    apply (find_none _ _ E) in Hin.
    unfold PlotQuery.byNumberAndColony in Hin.
    rewrite Hp, Hpc, !String.eqb_refl in Hin. discriminate.
Qed.

(** C6. In a database where colony [c] already has a plot numbered [n],
    a POST /plots for number [n] under [c] is answered with the conflict
    and the database is left as it was; a POST /plots for the same number
    under another stored colony [c'] that has no plot numbered [n], with a
    body the schema accepts, is answered 201 and adds the plot. *)
Theorem plotNumber_unique_per_colony
        (user id1 id2 : ObjectId) (n : string) (c c' : ObjectId)
        (body body' : Plot.fields) (db : Db) (p : Plot.t)
        (colony colony' : Colony.t) (doc : Plot.t) :
  In p (plots db) -> Plot.plotNumber p = n -> Plot.colony p = c ->
  ColonyModel.findById c db = Some colony ->
  ColonyModel.findById c' db = Some colony' ->
  (forall q, In q (plots db) -> Plot.plotNumber q = n -> Plot.colony q <> c') ->
  Plot.f_plotNumber body = Some n -> Plot.f_colony body = Some c ->
  Plot.f_plotNumber body' = Some n -> Plot.f_colony body' = Some c' ->
  Plot.validate id2 (plotData user body') = Ok doc ->
  createPlot user id1 body db
  = (sendFailure 400 "Plot number already exists in this colony", db)
  /\ exists plot db',
      createPlot user id2 body' db
      = (sendSuccess 201 "Plot created successfully" (PlotData plot), db')
      /\ Plot.plotNumber plot = n
      /\ Plot.colony plot = c'
      /\ plots db' = (plots db ++ [plot])%list.
Proof.
  intros Hin Hp Hpc Hcol Hcol' Hfree Hn Hc Hn' Hc' Hvalid.
  split.
  - unfold createPlot. rewrite Hc, Hcol.
    destruct (existingPlot body db) eqn:E; [reflexivity|].
    exfalso. revert E. apply (existingPlot_found body db n c Hn Hc).
    now exists p.
  - unfold createPlot. rewrite Hc', Hcol'.
    destruct (existingPlot body' db) as [q|] eqn:E.
    { exfalso.
      assert (Hsome : existingPlot body' db <> None) by congruence.
      apply (existingPlot_found body' db n c' Hn' Hc') in Hsome
        as (q' & Hq & Hqn & Hqc).
      exact (Hfree q' Hq Hqn Hqc). }
    rewrite (create_ok _ _ _ _ Hvalid).
    destruct (recompute_ok (Plot.colony doc)
                (mkDb (plots db ++ [priced doc]) (colonies db)))
      as (db2 & Hrun & Hplots & _).
    rewrite Hrun.
    destruct (validate_number_colony _ _ _ _ Hvalid) as [Hdn Hdc].
    exists (priced doc), db2. simpl.
    repeat split; try congruence. exact Hplots.
Qed.

Lemma plotNumber_unique_per_colony_witness :
  createPlot Sample.admin Sample.plot2Id (Sample.bodyA1 Sample.greenParkId)
             Sample.withA1
  = (sendFailure 400 "Plot number already exists in this colony",
     Sample.withA1)
  /\ exists plot db',
      createPlot Sample.admin Sample.plot2Id (Sample.bodyA1 Sample.lakeViewId)
                 Sample.withA1
      = (sendSuccess 201 "Plot created successfully" (PlotData plot), db')
      /\ Plot.plotNumber plot = "A-1"
      /\ Plot.colony plot = Sample.lakeViewId
      /\ plots db' = (plots Sample.withA1 ++ [plot])%list.
Proof.
  refine (plotNumber_unique_per_colony
            Sample.admin Sample.plot2Id Sample.plot2Id "A-1"
            Sample.greenParkId Sample.lakeViewId
            (Sample.bodyA1 Sample.greenParkId)
            (Sample.bodyA1 Sample.lakeViewId)
            Sample.withA1
            (Plot.mk Sample.plot1Id "A-1" Sample.greenParkId 50%Q 100%Q
                     (50 * 100)%Q available false east 0%Q Sample.admin)
            (Colony.setCounters (1, 1, 0, 0)%Z Sample.greenPark)
            Sample.lakeView
            (Plot.mk Sample.plot2Id "A-1" Sample.lakeViewId 50%Q 100%Q
                     1%Q available false east 0%Q Sample.admin)
            _ eq_refl eq_refl eq_refl eq_refl _
            eq_refl eq_refl eq_refl eq_refl eq_refl).
  - left. reflexivity.
  - intros q [<-|[]] _ Hq. discriminate Hq.
Defined.

End PlotNumbers.

(** ** Validation failures *)

Section ValidationFailures.

Import Validation.

Lemma length_runSteps (l : Location) (p : list string) (ss : list Step)
      (v : Js.Value) :
  List.length (runSteps l p ss v) = violatedSteps ss v.
Proof.
  revert v. induction ss as [|[test msg|test msg|f] ss IH]; intros v; simpl.
  - reflexivity.
  - destruct (test v); simpl; now rewrite IH.
  - now rewrite length_app, length_map, IH.
  - apply IH.
Qed.

(** One error per violation. *)
Lemma length_validationResult (chains : list Chain) (req : Request) :
  List.length (validationResult chains req) = violated chains req.
Proof.
  unfold validationResult, violated.
  induction chains as [|c chains IH]; simpl; [reflexivity|].
  rewrite length_app, IH. f_equal.
  unfold runChain.
  destruct (optional c && isUndefined _); [reflexivity|].
  apply length_runSteps.
Qed.

Lemma find_key_first (before : list (string * Js.Value)) (key : string)
      (u : Js.Value) (after : list (string * Js.Value)) :
  ~ In key (map fst before) ->
  find (fun e => String.eqb (fst e) key) (before ++ (key, u) :: after)
  = Some (key, u).
Proof.
  induction before as [|[k w] before IH]; simpl; intros Hfresh.
  - now rewrite String.eqb_refl.
  - destruct (String.eqb_spec k key) as [->|_].
    + exfalso. apply Hfresh. now left.
    + apply IH. intros Hin. apply Hfresh. now right.
Qed.

Lemma find_key_none (entries : list (string * Js.Value)) (key : string) :
  find (fun e => String.eqb (fst e) key) entries = None
  <-> ~ In key (map fst entries).
Proof.
  induction entries as [|[k w] entries IH]; simpl.
  - split; [intros _ []|reflexivity].
  - destruct (String.eqb_spec k key) as [->|Hk].
    + split; [discriminate|]. intros Hfresh. exfalso. apply Hfresh. now left.
    + rewrite IH. split.
      * intros Hfresh [Heq|Hin]; [now apply Hk|now apply Hfresh].
      * intros Hfresh Hin. apply Hfresh. now right.
Qed.

Lemma find_key_split (entries : list (string * Js.Value)) (key : string)
      (e : string * Js.Value) :
  find (fun e => String.eqb (fst e) key) entries = Some e ->
  exists before after,
    entries = (before ++ e :: after)%list
    /\ fst e = key
    /\ ~ In key (map fst before).
Proof.
  induction entries as [|[k w] entries IH]; simpl; [discriminate|].
  destruct (String.eqb_spec k key) as [->|Hk].
  - intros [= <-]. exists [], entries. repeat split. intros [].
  - intros Hfind. destruct (IH Hfind) as (before & after & -> & Hkey & Hfresh).
    exists ((k, w) :: before), after. repeat split; [assumption|].
    intros [Heq|Hin]; [now apply Hk|now apply Hfresh].
Qed.

(** [select] reads what the request part holds. *)
Lemma select_heldAt (p : list string) (v w : Js.Value) :
  heldAt v p w <-> select p v = w.
Proof.
  split.
  - induction 1 as [v|before key u after rest w Hfresh _ IH
                    |entries key rest Hfresh|v key rest Hscalar]; simpl.
    + reflexivity.
    + now rewrite find_key_first.
    + apply find_key_none in Hfresh. now rewrite Hfresh.
    + destruct v; try reflexivity. exfalso. now apply (Hscalar entries).
  - revert v w. induction p as [|key rest IH]; intros v w <-; simpl.
    + constructor.
    + destruct v as [| | | | |items|entries];
        try (apply heldAt_scalar; intros entries' Heq; discriminate Heq).
      destruct (find _ entries) as [[k u]|] eqn:Hfind.
      * apply find_key_split in Hfind
          as (before & after & -> & Hkey & Hfresh).
        simpl in Hkey. subst k. apply heldAt_entry; [assumption|].
        now apply IH.
      * apply heldAt_absent. now apply find_key_none.
Qed.

Lemma valueAfter_cons (s : Step) (before : list Step) (v : Js.Value) :
  valueAfter (s :: before) v
  = valueAfter before (match s with sanitize f => f v | _ => v end).
Proof. reflexivity. Qed.

(** The errors of a chain's links are the reports of its validators, each
    on the value that reaches it. *)
Lemma runSteps_rejects (l : Location) (p : list string) (ss : list Step)
      (v : Js.Value) (e : FieldError) :
  In e (runSteps l p ss v)
  <-> exists before s rest,
        ss = (before ++ s :: rest)%list
        /\ rejects s (valueAfter before v) (err_msg e) (err_value e)
        /\ err_location e = l /\ err_path e = p.
Proof.
  split.
  - revert v.
    induction ss as [|[test msg|test msg|f] ss IH]; intros v; simpl.
    + contradiction.
    + assert (Hrest : In e (runSteps l p ss v) ->
                      exists before s rest,
                        (check test msg :: ss
                         = before ++ s :: rest)%list
                        /\ rejects s (valueAfter before v)
                                   (err_msg e) (err_value e)
                        /\ err_location e = l /\ err_path e = p).
      { intros He.
        destruct (IH _ He) as (before & s & rest & -> & Hrej & Hl & Hp).
        exists (check test msg :: before), s, rest.
        now rewrite valueAfter_cons. }
      destruct (test v) eqn:Htest; [exact Hrest|].
      intros [<-|He]; [|now apply Hrest].
      exists [], (check test msg), ss. simpl.
      repeat split. now constructor.
    + intros He. apply in_app_or in He as [He|He].
      * apply in_map_iff in He as (x & <- & Hx).
        apply filter_In in Hx as [Hx Htest].
        apply negb_true_iff in Htest.
        exists [], (standard test msg), ss. simpl. repeat split.
        destruct v; simpl in Hx;
          try (destruct Hx as [<-|[]];
               apply rejects_text; [intros items' Heq; discriminate Heq
                                   |assumption]).
        now apply rejects_element.
      * destruct (IH _ He) as (before & s & rest & -> & Hrej & Hl & Hp).
        exists (standard test msg :: before), s, rest.
        now rewrite valueAfter_cons.
    + intros He.
      destruct (IH _ He) as (before & s & rest & -> & Hrej & Hl & Hp).
      exists (sanitize f :: before), s, rest.
      now rewrite valueAfter_cons.
  - intros (before & s & rest & -> & Hrej & Hl & Hp).
    revert v Hrej. induction before as [|b before IH]; intros v Hrej.
    + simpl in Hrej. destruct e as [el ep ev em]. simpl in *. subst el ep.
      inversion Hrej as [test msg v' Htest|test msg items x Hx Htest
                         |test msg v' Hscalar Htest]; subst; simpl.
      * rewrite Htest. now left.
      * apply in_or_app. left. apply in_map_iff. exists ev.
        split; [reflexivity|]. apply filter_In.
        split; [assumption|now rewrite Htest].
      * apply in_or_app. left. apply in_map_iff. exists ev.
        split; [reflexivity|]. apply filter_In.
        split; [|now rewrite Htest].
        destruct ev; simpl; try (now left).
        exfalso. now apply (Hscalar items).
    + rewrite valueAfter_cons in Hrej. apply IH in Hrej.
      destruct b as [test msg|test msg|f]; simpl.
      * destruct (test v); [assumption|now right].
      * apply in_or_app. now right.
      * assumption.
Qed.

(** The records of the response are the records of the violations. *)
Lemma validationResult_violates (chains : list Chain) (req : Request)
      (d : ErrorDetail) :
  In d (map errorDetail (validationResult chains req))
  <-> exists c, In c chains /\ violates req c d.
Proof.
  unfold validationResult. split.
  - intros Hd. apply in_map_iff in Hd as (e & <- & He).
    apply in_flat_map in He as (c & Hc & He).
    exists c. split; [assumption|].
    unfold runChain in He.
    destruct (optional c && isUndefined _) eqn:Hskip; [contradiction|].
    apply runSteps_rejects in He as (before & s & rest & Hs & Hrej & Hl & Hp).
    exists (select (path c) (part (location c) req)), before, s, rest.
    split; [now apply select_heldAt|].
    split.
    { apply andb_false_iff in Hskip as [Hopt|Hdef]; [now left|right].
      intros Hv. rewrite Hv in Hdef. discriminate Hdef. }
    repeat split; assumption.
  - intros (c & Hc & v & before & s & rest
            & Hheld & Hopt & Hs & Hrej & Hf & Hl).
    apply select_heldAt in Hheld.
    apply in_map_iff.
    exists (mkFieldError (location c) (path c) (value d) (message d)).
    split.
    { destruct d as [df dm dv dl]. simpl in *. now subst. }
    apply in_flat_map. exists c. split; [assumption|].
    unfold runChain. rewrite Hheld.
    assert (Hrun : optional c && isUndefined v = false).
    { destruct Hopt as [->|Hv]; [reflexivity|].
      apply andb_false_iff. right. destruct v; try reflexivity.
      now contradiction Hv. }
    rewrite Hrun. apply runSteps_rejects.
    exists before, s, rest. repeat split; assumption.
Qed.

(** Without a violation the handler behind the middleware runs. *)
Lemma validatedRoute_passes (chains : list Chain)
      (handler : Request -> Handler) (req : Request) (now : string)
      (db : Db) :
  violated chains req = 0%nat ->
  validatedRoute chains handler req now db = handler req db.
Proof.
  rewrite <- length_validationResult. unfold validatedRoute.
  destruct (validationResult chains req); [reflexivity|discriminate].
Qed.

(** The report of [validations.params.objectId] does not depend on the
    sanitizer that ends the chain. *)
Lemma params_objectId_report (f g : Js.Value -> Js.Value) (req : Request) :
  validationResult (params_objectId f) req
  = validationResult (params_objectId g) req.
Proof.
  unfold validationResult, params_objectId, runChain. simpl.
  destruct (select ["id"] (req_params req)); reflexivity.
Qed.

(** PUT /plots/:id with the body [{ status: ["bogus", "junk"] }] violates
    one rule, the [isIn] of the status, and is answered with two records,
    one for each element of the array. *)
Lemma putPlot_status_array_two_records :
  ~ oneRecordPerRule.
Proof.
  intros Hevery.
  specialize
    (Hevery [] [] []
            (mkRequest
               (Js.Obj [("status", Js.Arr [Js.Str "bogus"; Js.Str "junk"])])
               (Js.Obj [("id", Js.Str Sample.plot1Id)])
               Js.Undefined)).
  discriminate Hevery.
Qed.

(** The same request, whatever the links of the three other chains. *)
Example putPlot_status_array_response
        (plotNumber area pricePerSqFt : list Step)
        (handler : Request -> Handler) (now : string) (db : Db) :
  let req :=
    mkRequest (Js.Obj [("status", Js.Arr [Js.Str "bogus"; Js.Str "junk"])])
              (Js.Obj [("id", Js.Str Sample.plot1Id)])
              Js.Undefined in
  RequestSanitizer.sanitizeRequest req = req
  /\ violatedRules (PlotRouter.putPlotChains plotNumber area pricePerSqFt)
                   req = 1%nat
  /\ PlotRouter.putPlot plotNumber area pricePerSqFt handler req now db
     = (mkResponse 400 false (Some "Validation failed")
          (ValidationErrors
             [ mkErrorDetail ["status"] "Invalid plot status"
                             (Js.Str "bogus") body;
               mkErrorDetail ["status"] "Invalid plot status"
                             (Js.Str "junk") body ]
             now)
          None,
        db).
Proof. repeat split. Qed.

(** C7 (amended). When a request violates a rule of a route's chains, the
    route does not throw: it answers once, with status 400 and [success]
    false, the handler behind the middleware is not run and the database
    is left as it was.  The answer holds the records (field, message,
    value, location) of all the violations of all the chains together, and
    nothing else: one record for each rule that refuses the value of its
    field, except that a validator on text given an array yields one record
    for each element it refuses, with that element as the value. *)
Theorem validation_failure_reported
        (chains : list Chain) (handler : Request -> Handler)
        (req : Request) (now : string) (db : Db)
        (c : Chain) (d0 : ErrorDetail) :
  In c chains ->
  violates req c d0 ->
  exists details,
    validatedRoute chains handler req now db
    = (mkResponse 400 false (Some "Validation failed")
                  (ValidationErrors details now) None,
       db)
    /\ (forall d, In d details
                  <-> exists c', In c' chains /\ violates req c' d)
    /\ List.length details = violated chains req.
Proof.
  intros Hc Hviolates.
  exists (map errorDetail (validationResult chains req)).
  assert (Hd0 : In d0 (map errorDetail (validationResult chains req))).
  { apply validationResult_violates. now exists c. }
  split.
  - unfold validatedRoute, handleValidationErrors.
    destruct (validationResult chains req); [contradiction Hd0|reflexivity].
  - split; [intros d; apply validationResult_violates|].
    rewrite length_map. apply length_validationResult.
Qed.

Lemma validation_failure_reported_witness :
  let chains := PlotRouter.putPlotChains [] [] [] in
  let req :=
    mkRequest
      (Js.Obj [("status",
                Js.Arr [Js.Str "bogus"; Js.Str "sold"; Js.Str "junk"])])
      (Js.Obj [("id", Js.Str "not-an-id")])
      Js.Undefined in
  let handler :=
    fun _ : Request =>
      PlotRoutes.updatePlot Sample.plot1Id (Sample.onlyStatus sold) in
  let junk :=
    mkErrorDetail ["status"] "Invalid plot status" (Js.Str "junk") body in
  In Rules.plot_update_status chains
  /\ violates req Rules.plot_update_status junk
  /\ snd (handler req Sample.withA1) <> Sample.withA1
  /\ PlotRouter.putPlot [] [] [] handler req "2024-01-01T00:00:00.000Z"
                        Sample.withA1
     = (mkResponse 400 false (Some "Validation failed")
          (ValidationErrors
             [ mkErrorDetail ["id"] "Invalid ID format"
                             (Js.Str "not-an-id") params;
               mkErrorDetail ["status"] "Invalid plot status"
                             (Js.Str "bogus") body;
               junk ]
             "2024-01-01T00:00:00.000Z")
          None,
        Sample.withA1).
Proof.
  intros chains req handler junk.
  assert (Hc : In Rules.plot_update_status chains).
  { right. right. right. right. left. reflexivity. }
  assert (Hv : violates req Rules.plot_update_status junk).
  { exists (Js.Arr [Js.Str "bogus"; Js.Str "sold"; Js.Str "junk"]), [],
           (standard (Rules.isIn ["available"; "blocked"; "sold"; "reserved"])
                     "Invalid plot status"),
           [sanitize RequestSanitizer.sanitizeString].
    split; [apply select_heldAt; reflexivity|].
    split; [right; discriminate|].
    split; [reflexivity|].
    split; [|split; reflexivity].
    apply rejects_element; [simpl; tauto|reflexivity]. }
  split; [exact Hc|]. split; [exact Hv|].
  split; [vm_compute; intros Hsame; discriminate Hsame|].
  destruct (validation_failure_reported
              chains handler req "2024-01-01T00:00:00.000Z" Sample.withA1
              Rules.plot_update_status junk Hc Hv)
    as (details & Hrun & _ & _).
  change (PlotRouter.putPlot [] [] [] handler req
                             "2024-01-01T00:00:00.000Z" Sample.withA1)
    with (validatedRoute chains handler req "2024-01-01T00:00:00.000Z"
                         Sample.withA1).
  rewrite Hrun.
  assert (Hdetails :
            details
            = [ mkErrorDetail ["id"] "Invalid ID format"
                              (Js.Str "not-an-id") params;
                mkErrorDetail ["status"] "Invalid plot status"
                              (Js.Str "bogus") body;
                junk ]).
  { vm_compute in Hrun. injection Hrun as Hrun. now symmetry. }
  now rewrite Hdetails.
Defined.

End ValidationFailures.

(** ** The pagination block *)

Section PaginationBlock.

(** For a positive limit the page count is the ceiling of the quotient: the
    least number of pages of [limit] documents that hold [total]. *)
Lemma pageCount_ceiling (total : nat) (limit : Z) :
  (0 < limit)%Z ->
  exists p, pageCount total limit = Some p
            /\ ((p - 1) * limit < Z.of_nat total <= p * limit)%Z.
Proof.
  intros Hpos. unfold pageCount.
  destruct (Z.eqb_spec limit 0) as [->|_]; [lia|].
  eexists. split; [reflexivity|].
  set (x := (inject_Z (Z.of_nat total) / inject_Z limit)%Q).
  assert (Hx : (x * inject_Z limit == inject_Z (Z.of_nat total))%Q).
  { unfold x. rewrite Qmult_comm. apply Qmult_div_r.
    unfold Qeq. simpl. lia. }
  assert (HL : (0 < inject_Z limit)%Q).
  { change 0%Q with (inject_Z 0). now rewrite <- Zlt_Qlt. }
  split.
  - rewrite Zlt_Qlt, inject_Z_mult, <- Hx.
    apply (proj2 (Qmult_lt_r _ _ _ HL)). apply Qceiling_lt.
  - rewrite Zle_Qle, inject_Z_mult, <- Hx.
    apply (proj2 (Qmult_le_r _ _ _ HL)). apply Qle_ceiling.
Qed.

(** The answers of GET /plots and GET /colonies carry the block. *)
Lemma paged_lists_carry_pagination
      (page limit : Z) (plotFilter : Plot.t -> bool)
      (colonyFilter : Colony.t -> bool) (db : Db) :
  (0 <= (page - 1) * limit)%Z ->
  carriesPagination (fst (PlotRoutes.listPlots page limit plotFilter db))
  = true
  /\ carriesPagination
       (fst (ColonyRoutes.listColonies page limit colonyFilter db))
     = true.
Proof.
  intros Hskip.
  assert (Hok : ((page - 1) * limit <? 0)%Z = false) by (apply Z.ltb_ge; lia).
  unfold PlotRoutes.listPlots, ColonyRoutes.listColonies.
  rewrite Hok. split; reflexivity.
Qed.


Example listProperties_sample :
  let villa := Property.mk "650000000000000000000201" "Lake Villa"
                           Property.Residential Sample.lakeViewId None None
                           None None None [] [] Property.active
                           Sample.admin in
  PropertyRoutes.listProperties (fun _ => true) [villa]
  = mkResponse 200 true None (PropertyList [villa]) None.
Proof. reflexivity. Qed.



End PaginationBlock.

(** * Further properties *)

(** ** Phone numbers *)

Section PhoneShape.

Import Js Sanitizers SanitizersFacts.

Lemma removeNonDigits_digits (s : string) :
  forallb isDigit (list_ascii_of_string (removeNonDigits s)) = true.
Proof.
  apply forallb_forall. intros c Hc.
  pose proof (removeNonDigits_all_digits s) as Hall.
  rewrite Forall_forall in Hall. now apply Hall.
Qed.

(** X1. Whatever [sanitizePhone] accepts is a plus sign followed by
    between 11 and 15 digits and nothing else: a ten-digit number comes
    back with 91 in front, twelve digits in all. *)
Theorem sanitizePhone_shape (phone : Value) (r : string) :
  sanitizePhone phone = Some r ->
  exists digits,
    r = "+" ++ digits
    /\ forallb isDigit (list_ascii_of_string digits) = true
    /\ (11 <= String.length digits <= 15)%nat.
Proof.
  destruct phone as [| | | |s| |]; try discriminate.
  unfold sanitizePhone.
  destruct (String.length (removeNonDigits s) =? 10)%nat eqn:E10.
  - intros [= <-]. apply Nat.eqb_eq in E10.
    exists ("91" ++ removeNonDigits s). split; [reflexivity|]. split.
    + simpl. apply removeNonDigits_digits.
    + simpl. rewrite E10. lia.
  - destruct ((10 <=? _)%nat && (_ <=? 15)%nat) eqn:Erange; [|discriminate].
    intros [= <-]. apply Nat.eqb_neq in E10.
    apply andb_true_iff in Erange as [Hlo Hhi].
    apply Nat.leb_le in Hlo, Hhi.
    exists (removeNonDigits s). split; [reflexivity|]. split.
    + apply removeNonDigits_digits.
    + lia.
Qed.

Lemma sanitizePhone_shape_witness :
  sanitizePhone (Str "98765 43210") = Some "+919876543210"
  /\ exists digits,
      "+919876543210" = "+" ++ digits
      /\ forallb isDigit (list_ascii_of_string digits) = true
      /\ (11 <= String.length digits <= 15)%nat.
Proof.
  split; [reflexivity|].
  apply (sanitizePhone_shape (Str "98765 43210")). reflexivity.
Defined.

(** X2. The phone rule of user registration reports nothing exactly when
    the body has no phone or the phone is text with 10 to 15 digits; a
    phone sent as a number, or text with fewer or more digits, is
    reported. *)
Theorem register_phone_accepts (req : Validation.Request) :
  Validation.validationResult [Rules.register_phone] req = []
  <-> (Validation.select ["phone"] (Validation.req_body req) = Undefined
       \/ exists s,
           Validation.select ["phone"] (Validation.req_body req) = Str s
           /\ (10 <= String.length (removeNonDigits s) <= 15)%nat).
Proof.
  unfold Validation.validationResult, Validation.runChain, Rules.register_phone.
  cbn [flat_map Validation.path Validation.location Validation.optional
       Validation.steps Validation.part andb app].
  set (v := Validation.select ["phone"] (Validation.req_body req)).
  rewrite app_nil_r.
  destruct v as [| | | |s| |]; cbn [Validation.isUndefined Validation.runSteps sanitizePhone];
    try (split; [discriminate | intros [H|(s' & H & _)]; discriminate H]).
  - split; [now left|reflexivity].
  - destruct (String.length (removeNonDigits s) =? 10)%nat eqn:E10.
    + apply Nat.eqb_eq in E10. split; [|reflexivity].
      intros _. right. exists s. split; [reflexivity|lia].
    + destruct ((10 <=? _)%nat && (_ <=? 15)%nat) eqn:Erange.
      * apply andb_true_iff in Erange as [Hlo Hhi].
        apply Nat.leb_le in Hlo, Hhi. split; [|reflexivity].
        intros _. right. exists s. split; [reflexivity|lia].
      * split; [discriminate|].
        intros [H|(s' & [= <-] & Hlo & Hhi)]; [discriminate H|].
        apply Nat.leb_le in Hlo, Hhi. rewrite Hlo, Hhi in Erange.
        discriminate.
Qed.

End PhoneShape.

(** ** Trimming and escaping *)

Section EscapeFacts.

Import Js ValidatorJs RequestSanitizer.

Lemma list_ascii_app (s t : string) :
  list_ascii_of_string (s ++ t)
  = (list_ascii_of_string s ++ list_ascii_of_string t)%list.
Proof. induction s as [|c s IH]; simpl; [reflexivity|now rewrite IH]. Qed.

Lemma entity_chars (c : ascii) (e : string) :
  entity c = Some e ->
  forallb escapedChar (list_ascii_of_string e) = true
  /\ In (ascii_of_nat 38) (list_ascii_of_string e).
Proof.
  unfold entity.
  repeat match goal with
         | |- context [if ?b then _ else _] => destruct b
         end;
    intros [= <-]; split; try reflexivity; now left.
Qed.

Lemma escape_chars (s : string) :
  forallb escapedChar (list_ascii_of_string (escape s)) = true.
Proof.
  induction s as [|c s IH]; simpl; [reflexivity|].
  destruct (entity c) as [e|] eqn:He.
  - rewrite list_ascii_app, forallb_app, IH.
    now rewrite (proj1 (entity_chars _ _ He)).
  - simpl. unfold escapedChar at 1. now rewrite He, IH.
Qed.

(** X3. The text [sanitizeString] returns holds no angle bracket, quote,
    slash, backslash or backtick: each of its characters is either none of
    the eight escaped characters or an ampersand. *)
Theorem sanitizeText_no_markup (s : string) (c : ascii) :
  In c (list_ascii_of_string (sanitizeText s)) ->
  entity c = None \/ c = ascii_of_nat 38.
Proof.
  intros Hc. unfold sanitizeText in Hc.
  pose proof (escape_chars (trim s)) as Hall.
  rewrite forallb_forall in Hall. specialize (Hall c Hc).
  unfold escapedChar in Hall.
  destruct (entity c); [right|now left].
  apply Nat.eqb_eq in Hall. rewrite <- (ascii_nat_embedding c). now rewrite Hall.
Qed.

Lemma sanitizeText_no_markup_witness :
  sanitizeText " <b>A/1</b> " = "&lt;b&gt;A&#x2F;1&lt;&#x2F;b&gt;"
  /\ (entity (ascii_of_nat 59) = None \/ ascii_of_nat 59 = ascii_of_nat 38).
Proof.
  split; [reflexivity|].
  apply (sanitizeText_no_markup " <b>A/1</b> " (ascii_of_nat 59)).
  vm_compute. tauto.
Defined.

Lemma ltrim_plain (s : string) :
  forallb plainChar (list_ascii_of_string s) = true -> ltrim s = s.
Proof.
  destruct s as [|c s]; simpl; [reflexivity|].
  intros H. apply andb_true_iff in H as [Hc _].
  unfold plainChar in Hc. apply andb_true_iff in Hc as [Hws _].
  apply negb_true_iff in Hws. now rewrite Hws.
Qed.

Lemma rtrim_plain (s : string) :
  forallb plainChar (list_ascii_of_string s) = true -> rtrim s = s.
Proof.
  induction s as [|c s IH]; simpl; [reflexivity|].
  intros H. apply andb_true_iff in H as [Hc Hs].
  rewrite (IH Hs).
  unfold plainChar in Hc. apply andb_true_iff in Hc as [Hws _].
  apply negb_true_iff in Hws. rewrite Hws. now destruct s.
Qed.

Lemma escape_plain (s : string) :
  forallb plainChar (list_ascii_of_string s) = true -> escape s = s.
Proof.
  induction s as [|c s IH]; simpl; [reflexivity|].
  intros H. apply andb_true_iff in H as [Hc Hs].
  unfold plainChar in Hc. apply andb_true_iff in Hc as [_ He].
  destruct (entity c); [discriminate|]. now rewrite (IH Hs).
Qed.

Lemma hexDigit_plain (c : ascii) :
  Validation.isHexDigit c = true -> plainChar c = true.
Proof.
  unfold Validation.isHexDigit, plainChar, isWhitespace, entity.
  intros H.
  repeat rewrite orb_true_iff in H. repeat rewrite andb_true_iff in H.
  repeat rewrite Nat.leb_le in H.
  assert (Hne : forall k, (k < 48 \/ 57 < k < 65 \/ 70 < k < 97 \/ 102 < k)%nat ->
                          (nat_of_ascii c =? k)%nat = false).
  { intros k Hk. apply Nat.eqb_neq. lia. }
  rewrite !Hne by lia.
  assert (Hlo : (9 <=? nat_of_ascii c)%nat && (nat_of_ascii c <=? 13)%nat = false).
  { apply andb_false_iff. right. apply Nat.leb_gt. lia. }
  rewrite Hlo. reflexivity.
Qed.

(** X4. An identifier that [isValidObjectId] accepts is left as it is by
    the sanitizer that follows the validator in the identifier rules:
    [sanitizeString] changes no valid identifier. *)
Theorem sanitizeString_keeps_objectId (id : string) :
  Validation.isValidObjectId id = true ->
  sanitizeString (Str id) = Str id.
Proof.
  unfold Validation.isValidObjectId. intros H.
  apply andb_true_iff in H as [_ Hhex].
  assert (Hplain : forallb plainChar (list_ascii_of_string id) = true).
  { apply forallb_forall. intros c Hc.
    rewrite forallb_forall in Hhex. apply hexDigit_plain. now apply Hhex. }
  unfold sanitizeString, sanitizeText, trim.
  now rewrite (ltrim_plain _ Hplain), (rtrim_plain _ Hplain),
    (escape_plain _ Hplain).
Qed.

Lemma sanitizeString_keeps_objectId_witness :
  Validation.isValidObjectId "65000000000000000000000a" = true
  /\ sanitizeString (Str "65000000000000000000000a")
     = Str "65000000000000000000000a".
Proof.
  split; [reflexivity|].
  apply sanitizeString_keeps_objectId. reflexivity.
Defined.

(** What trimming keeps. *)
Lemma ltrim_keeps (s : string) (c : ascii) :
  isWhitespace c = false ->
  In c (list_ascii_of_string s) -> In c (list_ascii_of_string (ltrim s)).
Proof.
  intros Hc. induction s as [|a s IH]; simpl; [contradiction|].
  destruct (isWhitespace a) eqn:Ha.
  - intros [->|Hin]; [congruence|now apply IH].
  - trivial.
Qed.

Lemma rtrim_keeps (s : string) (c : ascii) :
  isWhitespace c = false ->
  In c (list_ascii_of_string s) -> In c (list_ascii_of_string (rtrim s)).
Proof.
  intros Hc. induction s as [|a s IH]; simpl; [contradiction|].
  intros [->|Hin].
  - destruct (rtrim s); [rewrite Hc|]; now left.
  - specialize (IH Hin).
    destruct (rtrim s); [contradiction|]. now right.
Qed.

Lemma trim_keeps (s : string) (c : ascii) :
  isWhitespace c = false ->
  In c (list_ascii_of_string s) -> In c (list_ascii_of_string (trim s)).
Proof.
  intros Hc Hin. unfold trim. now apply rtrim_keeps, ltrim_keeps.
Qed.

Lemma escape_ampersand (s : string) (c : ascii) (e : string) :
  entity c = Some e ->
  In c (list_ascii_of_string s) ->
  In (ascii_of_nat 38) (list_ascii_of_string (escape s)).
Proof.
  intros He. induction s as [|a s IH]; simpl; [contradiction|].
  intros [->|Hin].
  - rewrite He, list_ascii_app. apply in_or_app. left.
    exact (proj2 (entity_chars _ _ He)).
  - specialize (IH Hin).
    destruct (entity a); [|now right].
    rewrite list_ascii_app. apply in_or_app. now right.
Qed.

Lemma entity_not_whitespace (c : ascii) (e : string) :
  entity c = Some e -> isWhitespace c = false.
Proof.
  unfold entity, isWhitespace.
  repeat match goal with
         | |- context [if (?a =? ?b)%nat then _ else _] =>
             destruct (Nat.eqb_spec a b) as [->|]
         end; try discriminate; intros _; reflexivity.
Qed.

(** X5. POST /plots sanitizes the body before it validates it, so a plot
    number that holds a slash (or any other escaped character) reaches the
    plot number rule with an entity in it and fails the pattern, although
    the pattern's class lists the slash. *)
Theorem escaped_plotNumber_fails_pattern (s : string) (c : ascii) (e : string) :
  entity c = Some e ->
  In c (list_ascii_of_string s) ->
  Rules.plotNumberPattern (trim (sanitizeText s)) = false.
Proof.
  intros He Hin.
  assert (Hamp : In (ascii_of_nat 38)
                    (list_ascii_of_string (trim (sanitizeText s)))).
  { apply trim_keeps; [reflexivity|].
    unfold sanitizeText. apply (escape_ampersand _ c e He).
    apply trim_keeps; [exact (entity_not_whitespace _ _ He)|exact Hin]. }
  unfold Rules.plotNumberPattern. apply andb_false_iff. right.
  destruct (forallb Rules.plotNumberChar _) eqn:Hall; [|reflexivity].
  rewrite forallb_forall in Hall. specialize (Hall _ Hamp). discriminate Hall.
Qed.

Lemma escaped_plotNumber_fails_pattern_witness :
  Rules.plotNumberPattern "A/1" = true
  /\ Rules.plotNumberPattern (trim (sanitizeText "A/1")) = false.
Proof.
  split; [reflexivity|].
  apply (escaped_plotNumber_fails_pattern "A/1" (ascii_of_nat 47) "&#x2F;").
  - reflexivity.
  - vm_compute. tauto.
Defined.

End EscapeFacts.

(** ** The request sanitizer *)

Section SanitizeRequestFacts.

Import Js RequestSanitizer.

Lemma sanitizeObject_Obj (entries : list (string * Value)) :
  sanitizeObject (Obj entries)
  = Obj (fold_left setProperty
           (map (fun e =>
                   match e with
                   | (key, value) =>
                       (key,
                        match value with
                        | Str s => Str (sanitizeText s)
                        | _ => sanitizeObject value
                        end)
                   end)
                entries)
           []).
Proof. reflexivity. Qed.

Lemma sanitizeObject_strings (items : list Value) :
  (forall v, In v items -> exists s, v = Str s) ->
  map sanitizeObject items = items.
Proof.
  intros Hstr. rewrite <- (map_id items) at 2. apply map_ext_in.
  intros v Hv. destruct (Hstr v Hv) as [s ->]. reflexivity.
Qed.

(** X6. [sanitizeRequest] does not reach the strings that sit directly in
    an array: an array of strings comes back unchanged, also as the value of
    a body key such as [features] or [images], whatever markup or
    surrounding whitespace its strings hold. *)
Theorem sanitizeObject_skips_array_strings
        (items : list Value) (key : string) :
  (forall v, In v items -> exists s, v = Str s) ->
  key <> "__proto__" ->
  sanitizeObject (Arr items) = Arr items
  /\ sanitizeObject (Obj [(key, Arr items)]) = Obj [(key, Arr items)].
Proof.
  intros Hstr Hkey.
  assert (Harr : sanitizeObject (Arr items) = Arr items).
  { change (sanitizeObject (Arr items)) with (Arr (map sanitizeObject items)).
    now rewrite sanitizeObject_strings. }
  split; [exact Harr|].
  rewrite sanitizeObject_Obj. cbn [map fold_left]. rewrite Harr.
  unfold setProperty. cbn [fst snd].
  apply String.eqb_neq in Hkey. rewrite Hkey. reflexivity.
Qed.

Lemma sanitizeObject_skips_array_strings_witness :
  sanitizeObject (Obj [("features", Arr [Str " <script> "])])
  = Obj [("features", Arr [Str " <script> "])].
Proof.
  apply (sanitizeObject_skips_array_strings [Str " <script> "] "features").
  - intros v [<-|[]]. now exists " <script> ".
  - discriminate.
Defined.

Lemma assignKey_fresh (key : string) (value : Value)
      (sanitized : list (string * Value)) :
  ~ In key (map fst sanitized) ->
  assignKey key value sanitized = (sanitized ++ [(key, value)])%list.
Proof.
  induction sanitized as [|[k v] rest IH]; simpl; [reflexivity|].
  intros Hfresh.
  destruct (String.eqb_spec k key) as [->|_]; [tauto|].
  rewrite IH; [reflexivity|tauto].
Qed.

Lemma fold_setProperty_fresh (entries sanitized : list (string * Value)) :
  NoDup (map fst (sanitized ++ entries)) ->
  ~ In "__proto__" (map fst entries) ->
  fold_left setProperty entries sanitized = (sanitized ++ entries)%list.
Proof.
  revert sanitized.
  induction entries as [|[k v] entries IH]; intros sanitized Hnodup Hproto.
  - simpl. now rewrite app_nil_r.
  - simpl in Hproto. cbn [fold_left]. unfold setProperty at 2. cbn [fst snd].
    destruct (String.eqb_spec k "__proto__") as [->|_]; [tauto|].
    assert (Hfresh : ~ In k (map fst sanitized)).
    { rewrite map_app in Hnodup. simpl in Hnodup.
      apply NoDup_remove_2 in Hnodup. intros Hin. apply Hnodup.
      apply in_or_app. now left. }
    rewrite (assignKey_fresh _ _ _ Hfresh).
    rewrite IH.
    + now rewrite <- app_assoc.
    + now rewrite <- app_assoc.
    + tauto.
Qed.

(** X7. On an object whose keys are distinct and none of them [__proto__],
    [sanitizeRequest] keeps every key in its place, trims and escapes each
    value that is a string, and walks each other value. *)
Theorem sanitizeObject_properties (entries : list (string * Value)) :
  NoDup (map fst entries) ->
  ~ In "__proto__" (map fst entries) ->
  exists sanitized,
    sanitizeObject (Obj entries) = Obj sanitized
    /\ map fst sanitized = map fst entries
    /\ (forall key s, In (key, Str s) entries ->
                      In (key, Str (sanitizeText s)) sanitized)
    /\ (forall key items, In (key, Arr items) entries ->
                          In (key, Arr (map sanitizeObject items)) sanitized).
Proof.
  intros Hnodup Hproto.
  set (f := fun e : string * Value =>
              match e with
              | (key, value) =>
                  (key,
                   match value with
                   | Str s => Str (sanitizeText s)
                   | _ => sanitizeObject value
                   end)
              end).
  assert (Hkeys : map fst (map f entries) = map fst entries).
  { rewrite map_map. apply map_ext. now intros [k v]. }
  exists (map f entries). split.
  - rewrite sanitizeObject_Obj. fold f.
    rewrite fold_setProperty_fresh; [reflexivity| |];
      cbn [app]; now rewrite Hkeys.
  - split; [exact Hkeys|]. split.
    + intros key s Hin. apply in_map_iff. now exists (key, Str s).
    + intros key items Hin. apply in_map_iff. now exists (key, Arr items).
Qed.

Lemma sanitizeObject_properties_witness :
  exists sanitized,
    sanitizeObject (Obj [("plotNumber", Str " A-1 "); ("area", Number 50%Q)])
    = Obj sanitized
    /\ map fst sanitized = ["plotNumber"; "area"].
Proof.
  destruct (sanitizeObject_properties
              [("plotNumber", Str " A-1 "); ("area", Number 50%Q)])
    as (sanitized & Hrun & Hkeys & _).
  - repeat constructor; simpl; intuition discriminate.
  - simpl. intuition discriminate.
  - exists sanitized. split; [exact Hrun|exact Hkeys].
Defined.

End SanitizeRequestFacts.

(** ** What each write request does to the database *)

Section Effects.

Lemma colony_found_iff (id : ObjectId) (db : Db) :
  ColonyModel.findById id db <> None
  <-> In id (map Colony._id (colonies db)).
Proof.
  unfold ColonyModel.findById. split.
  - destruct (find _ (colonies db)) as [c|] eqn:E; [intros _|congruence].
    apply find_some in E as [Hin Hid]. apply String.eqb_eq in Hid.
    apply in_map_iff. now exists c.
  - intros Hin E. apply in_map_iff in Hin as (c & Hid & Hin).
    apply (find_none _ _ E) in Hin. rewrite Hid, String.eqb_refl in Hin.
    discriminate.
Qed.

Lemma replace_ids (doc : Colony.t) (db : Db) :
  map Colony._id (colonies (ColonyModel.replace doc db))
  = map Colony._id (colonies db).
Proof.
  unfold ColonyModel.replace. simpl. rewrite map_map. apply map_ext.
  intros c. destruct (String.eqb_spec (Colony._id c) (Colony._id doc));
    congruence.
Qed.

Lemma findById_replace_other (id : ObjectId) (doc : Colony.t) (db : Db) :
  id <> Colony._id doc ->
  ColonyModel.findById id (ColonyModel.replace doc db)
  = ColonyModel.findById id db.
Proof.
  intros Hid. unfold ColonyModel.findById, ColonyModel.replace. simpl.
  induction (colonies db) as [|x l IH]; simpl; [reflexivity|].
  destruct (String.eqb_spec (Colony._id x) (Colony._id doc)) as [Hx|Hx].
  - destruct (String.eqb_spec (Colony._id doc) id); [congruence|].
    destruct (String.eqb_spec (Colony._id x) id); [congruence|]. exact IH.
  - destruct (String.eqb (Colony._id x) id); [reflexivity|exact IH].
Qed.

(** The recompute leaves the plots, the colony identifiers and every other
    colony as they were. *)
Lemma recompute_frame (c : ObjectId) (db : Db) :
  exists db',
    recompute c db = (Ok tt, db')
    /\ plots db' = plots db
    /\ map Colony._id (colonies db') = map Colony._id (colonies db)
    /\ forall id, id <> c ->
                  ColonyModel.findById id db' = ColonyModel.findById id db.
Proof.
  unfold recompute, bind, query, ret.
  destruct (ColonyModel.findById c db) as [colony|] eqn:Hfound.
  - pose proof (findById_id _ _ _ Hfound) as Hid. subst c.
    rewrite (updatePlotCounts_ok _ _ _ Hfound).
    eexists. split; [reflexivity|]. split; [reflexivity|].
    split; [apply replace_ids|].
    intros id Hne. apply findById_replace_other.
    now rewrite setCounters_id.
  - exists db. repeat split; reflexivity.
Qed.

Lemma createPlot_effect (user newId : ObjectId) (body : Plot.fields)
      (db : Db) :
  snd (PlotRoutes.createPlot user newId body db) = db
  \/ exists doc c,
      Plot.validate newId (PlotRoutes.plotData user body) = Ok doc
      /\ Plot.f_colony body = Some c
      /\ ColonyModel.findById c db <> None
      /\ PlotRoutes.existingPlot body db = None
      /\ PlotRoutes.createPlot user newId body db
         = (sendSuccess 201 "Plot created successfully"
                        (PlotData (priced doc)),
            snd (recompute (Plot.colony doc)
                   (mkDb (plots db ++ [priced doc]) (colonies db)))).
Proof.
  unfold PlotRoutes.createPlot.
  destruct (Plot.f_colony body) as [c|] eqn:Hc; [|now left].
  destruct (ColonyModel.findById c db) as [colony|] eqn:Hfound; [|now left].
  destruct (PlotRoutes.existingPlot body db) eqn:Hdup; [now left|].
  destruct (Plot.validate newId (PlotRoutes.plotData user body))
    as [doc|e] eqn:Hvalid.
  - right. exists doc, c. rewrite (create_ok _ _ _ _ Hvalid).
    repeat split; try reflexivity. congruence.
  - left. now rewrite (create_invalid _ _ _ _ Hvalid).
Qed.

Lemma updatePlot_effect (id : ObjectId) (body : Plot.fields) (db : Db) :
  snd (PlotRoutes.updatePlot id body db) = db
  \/ exists p,
      PlotQuery.findById id db = Some p
      /\ PlotModel.validateUpdate body = Ok tt
      /\ PlotRoutes.updatePlot id body db
         = (sendSuccess 200 "Plot updated successfully"
                        (PlotData (Plot.set body p)),
            PlotModel.replace (Plot.set body p) db).
Proof.
  unfold PlotRoutes.updatePlot, PlotModel.findByIdAndUpdate, bind, lift,
    query, write, ret.
  destruct (PlotModel.validateUpdate body) as [[]|e]; [|now left].
  destruct (PlotQuery.findById id db) as [p|]; [|now left].
  right. exists p. repeat split.
Qed.

Lemma deletePlot_effect (id : ObjectId) (db : Db) :
  snd (PlotRoutes.deletePlot id db) = db
  \/ exists p,
      PlotQuery.findById id db = Some p
      /\ Plot.status p <> sold
      /\ PlotRoutes.deletePlot id db
         = (sendSuccess 200 "Plot deleted successfully" NoData,
            PlotModel.without p db).
Proof.
  unfold PlotRoutes.deletePlot.
  destruct (PlotQuery.findById id db) as [p|]; [|now left].
  destruct (PlotStatus_eqb (Plot.status p) sold) eqn:Hsold; [now left|].
  right. exists p. repeat split.
  intros H. apply PlotStatus_eqb_eq in H. congruence.
Qed.

Lemma plot_found_id (id : ObjectId) (db : Db) (p : Plot.t) :
  PlotQuery.findById id db = Some p -> In p (plots db) /\ Plot._id p = id.
Proof.
  unfold PlotQuery.findById. intros H. apply find_some in H as [Hin Hid].
  now apply String.eqb_eq in Hid.
Qed.

Lemma deleteColony_effect (id : ObjectId) (db : Db) :
  snd (MoreRoutes.deleteColony id db) = db
  \/ exists colony,
      ColonyModel.findById id db = Some colony
      /\ (forall p, In p (plots db) -> Plot.colony p <> id)
      /\ MoreRoutes.deleteColony id db
         = (mkResponse 200 true (Some "Colony deleted successfully")
                       NoData None,
            mkDb (plots db)
                 (filter (fun c => negb (String.eqb (Colony._id c) id))
                         (colonies db))).
Proof.
  unfold MoreRoutes.deleteColony.
  destruct (ColonyModel.findById id db) as [colony|] eqn:Hfound; [|now left].
  destruct (0 <? PlotQuery.countDocuments (PlotQuery.byColony id) db)%nat
    eqn:Hcount; [now left|].
  right. exists colony. split; [reflexivity|]. split.
  - intros p Hin Hc. apply Nat.ltb_ge in Hcount.
    unfold PlotQuery.countDocuments in Hcount.
    assert (Hf : In p (filter (PlotQuery.byColony id) (plots db))).
    { apply filter_In. split; [assumption|].
      unfold PlotQuery.byColony. now apply String.eqb_eq. }
    destruct (filter _ (plots db)); [contradiction|simpl in Hcount; lia].
  - unfold MoreRoutes.deleteOne, write. simpl.
    now rewrite (findById_id _ _ _ Hfound).
Qed.

End Effects.

(** ** Invariants of the database *)

Section Invariants.

Lemma NoDup_snoc {A} (l : list A) (x : A) :
  NoDup l -> ~ In x l -> NoDup (l ++ [x]).
Proof.
  induction l as [|a l IH]; simpl; intros Hl Hx.
  - constructor; [tauto|constructor].
  - inversion Hl as [|? ? Ha Hl']; subst. constructor.
    + intros Hin. apply in_app_or in Hin as [Hin|[<-|[]]]; tauto.
    + apply IH; tauto.
Qed.

Lemma NoDup_map_filter {A B} (f : A -> B) (g : A -> bool) (l : list A) :
  NoDup (map f l) -> NoDup (map f (filter g l)).
Proof.
  induction l as [|a l IH]; simpl; [trivial|].
  intros H. inversion H as [|? ? Ha Hl]; subst.
  destruct (g a); [|now apply IH].
  simpl. constructor; [|now apply IH].
  intros Hin. apply Ha. apply in_map_iff in Hin as (x & Hx & Hin).
  apply filter_In in Hin as [Hin _]. apply in_map_iff. now exists x.
Qed.

Lemma NoDup_map_inj {A B} (f : A -> B) (l : list A) (x y : A) :
  NoDup (map f l) -> In x l -> In y l -> f x = f y -> x = y.
Proof.
  induction l as [|a l IH]; simpl; [contradiction|].
  intros H Hx Hy Hxy. inversion H as [|? ? Ha Hl]; subst.
  destruct Hx as [<-|Hx], Hy as [<-|Hy]; try reflexivity.
  - exfalso. apply Ha. rewrite Hxy. now apply in_map.
  - exfalso. apply Ha. rewrite <- Hxy. now apply in_map.
  - now apply IH.
Qed.

(** X8. Plot numbers stay unique within colonies: if no two plots share
    number and colony (and none share an identifier), the same holds after
    any plot or colony create, update or delete request, except a plot
    update that carries a plot number or a colony. *)
Theorem numbersUnique_preserved (r : WriteRequest) (db : Db) :
  numbersUnique db ->
  plotIdsUnique db ->
  rekeysPlot r = false ->
  numbersUnique (snd (handle r db)).
Proof.
  intros Huniq Hids Hkeep. unfold numbersUnique in *.
  destruct r as [user newId body|id body|id|user newId body|id body|id];
    simpl in *.
  - destruct (createPlot_effect user newId body db)
      as [->|(doc & c & Hvalid & Hc & _ & Hdup & ->)]; [assumption|].
    destruct (recompute_frame (Plot.colony doc)
                (mkDb (plots db ++ [priced doc]) (colonies db)))
      as (db' & Hrun & Hplots & _).
    cbn [snd]. rewrite Hrun. cbn [snd]. rewrite Hplots. cbn [plots].
    rewrite map_app. apply NoDup_snoc; [assumption|].
    destruct (validate_number_colony _ _ _ _ Hvalid) as [Hn Hcol].
    intros Hin. apply in_map_iff in Hin as (p & Hkey & Hin).
    assert (Hsome : PlotRoutes.existingPlot body db <> None).
    { apply (existingPlot_found body db _ _ Hn Hcol).
      exists p. unfold numberKey in Hkey. simpl in Hkey.
      injection Hkey as H1 H2. now repeat split. }
    congruence.
  - destruct (updatePlot_effect id body db)
      as [->|(p & Hfound & _ & ->)]; [assumption|].
    cbn [snd]. unfold PlotModel.replace. cbn [plots].
    destruct (plot_found_id _ _ _ Hfound) as [Hin Hid].
    assert (Hsame : map numberKey
                        (map (fun q =>
                                if String.eqb (Plot._id q)
                                              (Plot._id (Plot.set body p))
                                then Plot.set body p else q)
                             (plots db))
                    = map numberKey (plots db)).
    { rewrite map_map. apply map_ext_in. intros q Hq.
      destruct (String.eqb_spec (Plot._id q) (Plot._id (Plot.set body p)))
        as [Heq|_]; [|reflexivity].
      assert (q = p) as ->
          by (apply (NoDup_map_inj Plot._id (plots db)); assumption).
      unfold numberKey, Plot.set. cbn [Plot.plotNumber Plot.colony].
      destruct (Plot.f_plotNumber body), (Plot.f_colony body);
        try discriminate.
      reflexivity. }
    now rewrite Hsame.
  - destruct (deletePlot_effect id db) as [->|(p & _ & _ & ->)];
      [assumption|].
    cbn [snd]. unfold PlotModel.without. cbn [plots].
    now apply NoDup_map_filter.
  - unfold ColonyRoutes.createColony, ColonyModel.create, bind, lift, write,
      ret.
    destruct (Colony.validate newId (ColonyRoutes.colonyData user body));
      assumption.
  - unfold ColonyRoutes.updateColony, ColonyModel.findByIdAndUpdate, bind,
      lift, query, write, ret.
    destruct (ColonyModel.validateUpdate body); [|assumption].
    destruct (ColonyModel.findById id db); assumption.
  - destruct (deleteColony_effect id db) as [->|(c & _ & _ & ->)];
      assumption.
Qed.

Lemma numbersUnique_preserved_witness :
  numbersUnique Sample.withA1
  /\ numbersUnique
       (snd (handle (PostPlot Sample.admin Sample.plot2Id
                              (Sample.bodyA1 Sample.lakeViewId))
                    Sample.withA1)).
Proof.
  assert (Hone : forall A (x : A), NoDup [x])
    by (intros; constructor; [intros []|constructor]).
  split; [apply Hone|].
  apply numbersUnique_preserved; [apply Hone|apply Hone|reflexivity].
Defined.

(** X9. Plots keep referencing stored colonies: if every plot's colony is
    stored, the same holds after any plot or colony create, update or
    delete request, except a plot update that carries a plot number or a
    colony; in particular no colony that a plot references is deleted. *)
Theorem referencesIntact_preserved (r : WriteRequest) (db : Db) :
  referencesIntact db ->
  rekeysPlot r = false ->
  referencesIntact (snd (handle r db)).
Proof.
  intros Hintact Hkeep. unfold referencesIntact in *.
  destruct r as [user newId body|id body|id|user newId body|id body|id];
    simpl in *.
  - destruct (createPlot_effect user newId body db)
      as [->|(doc & c & Hvalid & Hc & Hfound & _ & ->)]; [assumption|].
    destruct (recompute_frame (Plot.colony doc)
                (mkDb (plots db ++ [priced doc]) (colonies db)))
      as (db' & Hrun & Hplots & Hids & _).
    cbn [snd]. rewrite Hrun. cbn [snd]. intros p Hp.
    rewrite colony_found_iff, Hids. cbn [colonies].
    rewrite <- colony_found_iff.
    rewrite Hplots in Hp. cbn [plots] in Hp.
    apply in_app_or in Hp as [Hp|[<-|[]]]; [now apply Hintact|].
    destruct (validate_number_colony _ _ _ _ Hvalid) as [_ Hcol].
    change (Plot.colony (priced doc)) with (Plot.colony doc).
    congruence.
  - destruct (updatePlot_effect id body db)
      as [->|(p & Hfound & _ & ->)]; [assumption|].
    cbn [snd]. intros q Hq.
    change (ColonyModel.findById (Plot.colony q)
              (PlotModel.replace (Plot.set body p) db))
      with (ColonyModel.findById (Plot.colony q) db).
    unfold PlotModel.replace in Hq. cbn [plots] in Hq.
    apply in_map_iff in Hq as (x & Hx & Hin).
    destruct (String.eqb (Plot._id x) (Plot._id (Plot.set body p)));
      subst q; [|now apply Hintact].
    destruct (plot_found_id _ _ _ Hfound) as [Hp _].
    destruct (Plot.f_plotNumber body), (Plot.f_colony body) eqn:Hc;
      try discriminate.
    unfold Plot.set. cbn [Plot.colony]. rewrite Hc. now apply Hintact.
  - destruct (deletePlot_effect id db) as [->|(p & _ & _ & ->)];
      [assumption|].
    cbn [snd]. intros q Hq.
    unfold PlotModel.without in Hq. cbn [plots] in Hq.
    apply filter_In in Hq as [Hq _]. now apply Hintact.
  - unfold ColonyRoutes.createColony, ColonyModel.create, bind, lift, write,
      ret.
    destruct (Colony.validate newId (ColonyRoutes.colonyData user body));
      [|assumption].
    cbn [snd]. intros p Hp. rewrite colony_found_iff. cbn [colonies].
    rewrite map_app. apply in_or_app. left.
    apply colony_found_iff. now apply Hintact.
  - unfold ColonyRoutes.updateColony, ColonyModel.findByIdAndUpdate, bind,
      lift, query, write, ret.
    destruct (ColonyModel.validateUpdate body); [|assumption].
    destruct (ColonyModel.findById id db) as [c|]; [|assumption].
    cbn [snd]. intros p Hp. rewrite colony_found_iff, replace_ids.
    apply colony_found_iff. now apply Hintact.
  - destruct (deleteColony_effect id db) as [->|(c & _ & Hfree & ->)];
      [assumption|].
    cbn [snd]. intros p Hp. cbn [plots] in Hp.
    rewrite colony_found_iff. cbn [colonies].
    apply in_map_iff.
    specialize (Hintact p Hp). apply colony_found_iff in Hintact.
    apply in_map_iff in Hintact as (x & Hx & Hin).
    exists x. split; [assumption|].
    apply filter_In. split; [assumption|].
    apply negb_true_iff, String.eqb_neq. rewrite Hx. now apply Hfree.
Qed.

Lemma referencesIntact_preserved_witness :
  referencesIntact Sample.withA1
  /\ referencesIntact
       (snd (handle (DeleteColonyById Sample.greenParkId) Sample.withA1)).
Proof.
  assert (Hintact : referencesIntact Sample.withA1).
  { intros p [<-|[]]. discriminate. }
  split; [exact Hintact|].
  apply referencesIntact_preserved; [exact Hintact|reflexivity].
Defined.

End Invariants.

(** ** Plot and colony requests one by one *)

Section PlotRequests.

Import PlotRoutes MoreRoutes.

Lemma updatePlot_found (id : ObjectId) (body : Plot.fields) (q : Plot.t)
      (db : Db) :
  PlotQuery.findById id db = Some q ->
  PlotModel.validateUpdate body = Ok tt ->
  updatePlot id body db
  = (sendSuccess 200 "Plot updated successfully" (PlotData (Plot.set body q)),
     PlotModel.replace (Plot.set body q) db).
Proof.
  intros Hq Hvalid.
  unfold updatePlot, PlotModel.findByIdAndUpdate, bind, lift, query, write,
    ret.
  now rewrite Hvalid, Hq.
Qed.

(** X10. PUT /plots/:id has no duplicate check: renaming a plot to the
    number of another plot of its colony succeeds and leaves the colony
    with two plots of one number. *)
Theorem updatePlot_duplicates_number
        (id : ObjectId) (p q : Plot.t) (db : Db) :
  In p (plots db) ->
  PlotQuery.findById id db = Some q ->
  Plot._id p <> id ->
  Plot.colony p = Plot.colony q ->
  Plot.plotNumber p <> "" ->
  let body := Plot.mkFields (Some (Plot.plotNumber p)) None None None None
                            None None None None None in
  statusCode (fst (updatePlot id body db)) = 200%nat
  /\ ~ numbersUnique (snd (updatePlot id body db)).
Proof.
  intros Hp Hq Hne Hcol Hnum body.
  destruct (plot_found_id _ _ _ Hq) as [Hqin Hqid].
  assert (Hvalid : PlotModel.validateUpdate body = Ok tt).
  { unfold PlotModel.validateUpdate, body. cbn [Plot.f_plotNumber].
    destruct (Plot.plotNumber p); [congruence|reflexivity]. }
  rewrite (updatePlot_found _ _ _ _ Hq Hvalid). cbn [fst snd].
  split; [reflexivity|].
  unfold numbersUnique, PlotModel.replace. cbn [plots].
  intros Hnodup.
  set (q' := Plot.set body q) in *.
  assert (Hp' : In p (map (fun x => if String.eqb (Plot._id x) (Plot._id q')
                                    then q' else x) (plots db))).
  { apply in_map_iff. exists p.
    destruct (String.eqb_spec (Plot._id p) (Plot._id q')) as [Heq|_];
      [|now split].
    exfalso. apply Hne. rewrite Heq. exact Hqid. }
  assert (Hq'' : In q' (map (fun x => if String.eqb (Plot._id x) (Plot._id q')
                                      then q' else x) (plots db))).
  { apply in_map_iff. exists q. split; [|assumption].
    change (Plot._id q') with (Plot._id q). now rewrite String.eqb_refl. }
  assert (Heq : p = q').
  { apply (NoDup_map_inj numberKey _ p q' Hnodup Hp' Hq'').
    unfold numberKey, q', Plot.set, body. cbn. now rewrite Hcol. }
  apply Hne. rewrite Heq. exact Hqid.
Qed.

Lemma updatePlot_duplicates_number_witness :
  let db := snd (createPlot Sample.admin Sample.plot2Id
                   (Plot.mkFields (Some "A-2") (Some Sample.greenParkId)
                                  (Some 60%Q) (Some 100%Q) (Some 1%Q)
                                  None None (Some north) None None)
                   Sample.withA1) in
  numbersUnique db
  /\ ~ numbersUnique
       (snd (updatePlot Sample.plot2Id
               (Plot.mkFields (Some "A-1") None None None None
                              None None None None None)
               db)).
Proof.
  intros db. split.
  - unfold numbersUnique. vm_compute.
    repeat constructor; simpl; intuition discriminate.
  - refine (proj2 (updatePlot_duplicates_number
                     Sample.plot2Id
                     (Plot.mk Sample.plot1Id "A-1" Sample.greenParkId 50%Q
                              100%Q 5000%Q available false east 0%Q
                              Sample.admin)
                     (Plot.mk Sample.plot2Id "A-2" Sample.greenParkId 60%Q
                              100%Q 6000%Q available false north 0%Q
                              Sample.admin)
                     db _ _ _ _ _)).
    + left. reflexivity.
    + reflexivity.
    + discriminate.
    + reflexivity.
    + discriminate.
Defined.

(** X11. DELETE /plots/:id never removes a sold plot: with distinct plot
    identifiers, every plot whose status is sold is still stored after the
    request, whatever identifier the request names. *)
Theorem deletePlot_keeps_sold (id : ObjectId) (p : Plot.t) (db : Db) :
  plotIdsUnique db ->
  In p (plots db) ->
  Plot.status p = sold ->
  In p (plots (snd (deletePlot id db))).
Proof.
  intros Hids Hp Hsold.
  destruct (deletePlot_effect id db) as [->|(q & Hq & Hnot & ->)];
    [assumption|].
  cbn [snd]. unfold PlotModel.without. cbn [plots].
  apply filter_In. split; [assumption|].
  apply negb_true_iff, String.eqb_neq. intros Hid.
  destruct (plot_found_id _ _ _ Hq) as [Hqin _].
  assert (p = q) by (apply (NoDup_map_inj Plot._id (plots db)); assumption).
  subst q. contradiction.
Qed.

Lemma deletePlot_keeps_sold_witness :
  let db := snd (updatePlot Sample.plot1Id (Sample.onlyStatus sold)
                            Sample.withA1) in
  In (Plot.mk Sample.plot1Id "A-1" Sample.greenParkId 50%Q 100%Q 5000%Q
              sold false east 0%Q Sample.admin)
     (plots (snd (deletePlot Sample.plot1Id db))).
Proof.
  intros db. apply deletePlot_keeps_sold.
  - unfold plotIdsUnique. vm_compute.
    repeat constructor; simpl; intuition discriminate.
  - left. reflexivity.
  - reflexivity.
Defined.

Lemma createPlot_success_inv (user newId : ObjectId) (body : Plot.fields)
      (db db' : Db) (plot : Plot.t) :
  createPlot user newId body db
  = (sendSuccess 201 "Plot created successfully" (PlotData plot), db') ->
  exists doc,
    Plot.validate newId (plotData user body) = Ok doc
    /\ plot = priced doc
    /\ existingPlot body db = None
    /\ db' = snd (recompute (Plot.colony doc)
                    (mkDb (plots db ++ [priced doc]) (colonies db))).
Proof.
  unfold createPlot.
  destruct (match Plot.f_colony body with
            | Some c => ColonyModel.findById c db
            | None => None
            end); [|discriminate].
  destruct (existingPlot body db); [discriminate|].
  destruct (Plot.validate newId (plotData user body)) as [doc|e] eqn:Hvalid.
  - rewrite (create_ok _ _ _ _ Hvalid). intros [= <- <-].
    exists doc. repeat split.
  - rewrite (create_invalid _ _ _ _ Hvalid). discriminate.
Qed.

Lemma validate_id (id : ObjectId) (data : Plot.fields) (doc : Plot.t) :
  Plot.validate id data = Ok doc ->
  Plot._id doc = id /\ Some (Plot.createdBy doc) = Plot.f_createdBy data
  /\ Plot.status doc = withDefault available (Plot.f_status data).
Proof.
  unfold Plot.validate, andThen.
  destruct (requiredString _ _); [|discriminate].
  destruct (required "colony" _); [|discriminate].
  destruct (required "area" _); [|discriminate].
  destruct (required "pricePerSqFt" _); [|discriminate].
  destruct (required "totalPrice" _); [|discriminate].
  destruct (required "facing" _); [|discriminate].
  destruct (Plot.f_createdBy data); [|discriminate].
  simpl. now intros [= <-].
Qed.

Lemma deletePlot_run (id : ObjectId) (p : Plot.t) (db : Db) :
  PlotQuery.findById id db = Some p ->
  PlotStatus_eqb (Plot.status p) sold = false ->
  deletePlot id db
  = (sendSuccess 200 "Plot deleted successfully" NoData,
     PlotModel.without p db).
Proof.
  intros Hp Hs. unfold deletePlot. now rewrite Hp, Hs.
Qed.

Lemma findById_without (id : ObjectId) (p : Plot.t) (db : Db) :
  Plot._id p = id ->
  PlotQuery.findById id (PlotModel.without p db) = None.
Proof.
  intros Hid. unfold PlotQuery.findById, PlotModel.without. cbn [plots].
  rewrite Hid.
  induction (plots db) as [|x l IH]; simpl; [reflexivity|].
  destruct (String.eqb (Plot._id x) id) eqn:E; simpl; [exact IH|].
  now rewrite E.
Qed.

(** X12. Reading back what was written: after a successful POST /plots
    whose new identifier no stored plot has, GET /plots/:id for it answers
    with the created plot; and after any successful DELETE /plots/:id, GET
    for the same identifier answers 404. *)
Theorem getPlot_after_write
        (user newId : ObjectId) (body : Plot.fields) (db db' : Db)
        (plot : Plot.t) :
  createPlot user newId body db
  = (sendSuccess 201 "Plot created successfully" (PlotData plot), db') ->
  (forall p, In p (plots db) -> Plot._id p <> newId) ->
  getPlot newId db' = (sendSuccess 200 "Plot fetched" (PlotData plot), db')
  /\ forall id db0,
      statusCode (fst (deletePlot id db0)) = 200%nat ->
      fst (getPlot id (snd (deletePlot id db0)))
      = sendFailure 404 "Plot not found".
Proof.
  intros Hcreate Hfresh. split.
  - apply createPlot_success_inv in Hcreate
      as (doc & Hvalid & -> & _ & ->).
    destruct (recompute_frame (Plot.colony doc)
                (mkDb (plots db ++ [priced doc]) (colonies db)))
      as (db2 & Hrec & Hplots & _).
    rewrite Hrec. cbn [snd].
    destruct (validate_id _ _ _ Hvalid) as [Hid _].
    unfold getPlot, PlotQuery.findById. rewrite Hplots. cbn [plots].
    assert (Hget : find (fun plot => String.eqb (Plot._id plot) newId)
                        (plots db ++ [priced doc]) = Some (priced doc)).
    { clear Hplots Hrec. revert Hfresh. generalize (plots db) as l.
      induction l as [|x l IH]; simpl; intros Hfresh.
      - change (Plot._id (priced doc)) with (Plot._id doc).
        now rewrite Hid, String.eqb_refl.
      - destruct (String.eqb_spec (Plot._id x) newId) as [Hx|_].
        + exfalso. apply (Hfresh x); [now left|exact Hx].
        + apply IH. intros y Hy. apply Hfresh. now right. }
    now rewrite Hget.
  - intros id db0 Hok.
    destruct (PlotQuery.findById id db0) as [p|] eqn:Hp.
    + destruct (PlotStatus_eqb (Plot.status p) sold) eqn:Hs.
      * revert Hok. unfold deletePlot. rewrite Hp, Hs. discriminate.
      * rewrite (deletePlot_run _ _ _ Hp Hs). cbn [snd].
        unfold getPlot.
        rewrite (findById_without id p db0); [reflexivity|].
        exact (proj2 (plot_found_id _ _ _ Hp)).
    + revert Hok. unfold deletePlot. rewrite Hp. discriminate.
Qed.

Lemma getPlot_after_write_witness :
  getPlot Sample.plot1Id Sample.withA1
  = (sendSuccess 200 "Plot fetched"
       (PlotData (Plot.mk Sample.plot1Id "A-1" Sample.greenParkId 50%Q 100%Q
                          5000%Q available false east 0%Q Sample.admin)),
     Sample.withA1).
Proof.
  refine (proj1 (getPlot_after_write Sample.admin Sample.plot1Id
                   (Sample.bodyA1 Sample.greenParkId) Sample.empty
                   Sample.withA1 _ eq_refl _)).
  intros p [].
Defined.

(** X13. A colony that a plot references is not deleted: DELETE
    /colonies/:id for it leaves the database as it was and does not answer
    200.  A stored colony that no plot references is deleted: the answer is
    200, the colony is no longer found, and the plots and the other
    colonies are as before. *)
Theorem deleteColony_guarded (id : ObjectId) (db : Db) :
  ColonyModel.findById id db <> None ->
  ((exists p, In p (plots db) /\ Plot.colony p = id) ->
   deleteColony id db
   = (sendFailure 400 "Cannot delete colony with existing plots", db))
  /\ ((forall p, In p (plots db) -> Plot.colony p <> id) ->
      statusCode (fst (deleteColony id db)) = 200%nat
      /\ ColonyModel.findById id (snd (deleteColony id db)) = None
      /\ plots (snd (deleteColony id db)) = plots db
      /\ forall other, other <> id ->
           ColonyModel.findById other (snd (deleteColony id db))
           = ColonyModel.findById other db).
Proof.
  intros Hstored.
  destruct (ColonyModel.findById id db) as [colony|] eqn:Hfound;
    [clear Hstored|congruence].
  pose proof (findById_id _ _ _ Hfound) as Hid.
  split.
  - intros (p & Hp & Hc). unfold deleteColony. rewrite Hfound.
    assert (Hpos : (0 <? PlotQuery.countDocuments (PlotQuery.byColony id) db)%nat
                   = true).
    { apply Nat.ltb_lt. unfold PlotQuery.countDocuments.
      assert (Hf : In p (filter (PlotQuery.byColony id) (plots db))).
      { apply filter_In. split; [assumption|].
        unfold PlotQuery.byColony. now apply String.eqb_eq. }
      destruct (filter _ (plots db)); [contradiction|simpl; lia]. }
    now rewrite Hpos.
  - intros Hfree. unfold deleteColony. rewrite Hfound.
    assert (Hzero : (0 <? PlotQuery.countDocuments (PlotQuery.byColony id) db)%nat
                    = false).
    { apply Nat.ltb_ge. unfold PlotQuery.countDocuments.
      destruct (filter (PlotQuery.byColony id) (plots db)) as [|p l] eqn:E;
        [simpl; lia|].
      assert (Hin : In p (filter (PlotQuery.byColony id) (plots db)))
        by (rewrite E; now left).
      apply filter_In in Hin as [Hin Hc].
      apply String.eqb_eq in Hc. now apply Hfree in Hin. }
    rewrite Hzero. cbn [fst snd statusCode MoreRoutes.deleteOne write].
    rewrite Hid.
    split; [reflexivity|]. split; [|split; [reflexivity|]].
    + unfold ColonyModel.findById. cbn [colonies].
      induction (colonies db) as [|x l IH]; simpl; [reflexivity|].
      destruct (String.eqb (Colony._id x) id) eqn:E; simpl; [exact IH|].
      now rewrite E.
    + intros other Hother. unfold ColonyModel.findById. cbn [colonies].
      induction (colonies db) as [|x l IH]; simpl; [reflexivity|].
      destruct (String.eqb_spec (Colony._id x) id) as [Hx|Hx]; simpl.
      * destruct (String.eqb_spec (Colony._id x) other); [congruence|exact IH].
      * destruct (String.eqb (Colony._id x) other); [reflexivity|exact IH].
Qed.

Lemma deleteColony_guarded_witness :
  deleteColony Sample.greenParkId Sample.withA1
  = (sendFailure 400 "Cannot delete colony with existing plots",
     Sample.withA1)
  /\ statusCode (fst (deleteColony Sample.lakeViewId Sample.withA1))
     = 200%nat.
Proof.
  split.
  - apply (deleteColony_guarded Sample.greenParkId Sample.withA1);
      [discriminate|].
    eexists. split; [left; reflexivity|reflexivity].
  - apply (deleteColony_guarded Sample.lakeViewId Sample.withA1);
      [discriminate|].
    intros p [<-|[]]. discriminate.
Defined.

End PlotRequests.

(** ** The recompute and the price, once more *)

Section RecomputeAgain.

Import PlotRoutes.

(** X14. The recompute is idempotent and local: running it twice on a
    colony leaves what running it once leaves, it never changes a plot, and
    every other colony is found as before. *)
Theorem recompute_idempotent (c : ObjectId) (db : Db) :
  snd (recompute c (snd (recompute c db))) = snd (recompute c db)
  /\ plots (snd (recompute c db)) = plots db
  /\ forall other, other <> c ->
       ColonyModel.findById other (snd (recompute c db))
       = ColonyModel.findById other db.
Proof.
  split.
  - destruct (ColonyModel.findById c db) as [colony|] eqn:Hfound.
    + pose proof (findById_id _ _ _ Hfound) as Hid. subst c.
      set (counts := ColonyModel.plotCounts
                       (PlotQuery.find
                          (PlotQuery.byColony (Colony._id colony)) db)).
      assert (Hfirst : recompute (Colony._id colony) db
                       = (Ok tt, ColonyModel.replace
                                   (Colony.setCounters counts colony) db)).
      { unfold recompute, bind, query, ret. rewrite Hfound.
        now rewrite (updatePlotCounts_ok _ _ _ Hfound). }
      rewrite Hfirst. cbn [snd].
      set (once := Colony.setCounters counts colony).
      assert (Honce : Colony._id once = Colony._id colony)
        by apply setCounters_id.
      assert (Hthere : ColonyModel.findById (Colony._id once)
                         (ColonyModel.replace once db) = Some once).
      { apply findById_replace with (old := colony). now rewrite Honce. }
      unfold recompute, bind, query, ret.
      rewrite <- Honce, Hthere, (updatePlotCounts_ok _ _ _ Hthere).
      cbn [snd]. rewrite Honce.
      change (PlotQuery.find (PlotQuery.byColony (Colony._id colony))
                             (ColonyModel.replace once db))
        with (PlotQuery.find (PlotQuery.byColony (Colony._id colony)) db).
      fold counts. unfold once at 1 2. rewrite setCounters_twice.
      fold once. now rewrite replace_replace.
    + unfold recompute, bind, query, ret. rewrite Hfound. cbn [snd].
      now rewrite Hfound.
  - destruct (recompute_frame c db) as (db' & Hrun & Hplots & _ & Hother).
    rewrite Hrun. cbn [snd]. split; assumption.
Qed.

(** X15. The price rule tests area and price per square foot for
    truthiness, so an area of 0 is treated as absent: [Plot.create] on data
    the schema accepts with area 0 stores the total price the caller sent,
    not the product. *)
Theorem create_zero_area_keeps_price
        (id : ObjectId) (data : Plot.fields) (doc : Plot.t) (db : Db) :
  Plot.validate id data = Ok doc ->
  (Plot.area doc == 0)%Q ->
  exists stored db',
    PlotModel.create id data db = (Ok stored, db')
    /\ In stored (plots db')
    /\ Some (Plot.totalPrice stored) = Plot.f_totalPrice data.
Proof.
  intros Hvalid Hzero.
  rewrite (create_ok _ _ _ _ Hvalid).
  destruct (recompute_frame (Plot.colony doc)
              (mkDb (plots db ++ [priced doc]) (colonies db)))
    as (db' & Hrun & Hplots & _).
  rewrite Hrun. cbn [snd].
  exists (priced doc), db'. split; [reflexivity|]. split.
  - rewrite Hplots. cbn [plots]. apply in_or_app. right. now left.
  - unfold priced. cbn [Plot.totalPrice].
    assert (Hfalsy : Js.truthy (Plot.area doc) = false).
    { unfold Js.truthy. apply negb_false_iff. now apply Qeq_bool_iff. }
    rewrite Hfalsy. cbn [andb].
    revert Hvalid. unfold Plot.validate, andThen.
    destruct (requiredString _ _); [|discriminate].
    destruct (required "colony" _); [|discriminate].
    destruct (required "area" _); [|discriminate].
    destruct (required "pricePerSqFt" _); [|discriminate].
    destruct (Plot.f_totalPrice data); [|discriminate].
    destruct (required "facing" _); [|discriminate].
    destruct (required "createdBy" _); [|discriminate].
    simpl. now intros [= <-].
Qed.

Lemma create_zero_area_keeps_price_witness :
  let data := Plot.mkFields (Some "A-9") (Some Sample.greenParkId)
                            (Some 0%Q) (Some 100%Q) (Some 5%Q) None None
                            (Some east) None (Some Sample.admin) in
  exists stored db',
    PlotModel.create Sample.plot2Id data Sample.empty = (Ok stored, db')
    /\ In stored (plots db')
    /\ Some (Plot.totalPrice stored) = Some 5%Q.
Proof.
  intros data.
  apply (create_zero_area_keeps_price Sample.plot2Id data
           (Plot.mk Sample.plot2Id "A-9" Sample.greenParkId 0%Q 100%Q 5%Q
                    available false east 0%Q Sample.admin)).
  - reflexivity.
  - reflexivity.
Defined.

(** X16. The schema requires a total price and validates before the price
    rule runs, so POST /plots with a body that carries no total price
    creates nothing, even when area and price per square foot are given:
    the database is left as it was and the answer is not 201. *)
Theorem createPlot_needs_totalPrice
        (user newId : ObjectId) (body : Plot.fields) (db : Db) :
  Plot.f_totalPrice body = None ->
  snd (createPlot user newId body db) = db
  /\ statusCode (fst (createPlot user newId body db)) <> 201%nat
  /\ (existingPlot body db = None ->
      (exists c, Plot.f_colony body = Some c
                 /\ ColonyModel.findById c db <> None) ->
      fst (createPlot user newId body db) = sendFailure 500 "Server error").
Proof.
  intros Hnone.
  assert (Hinvalid : exists e,
             Plot.validate newId (plotData user body) = Err e).
  { unfold Plot.validate, plotData, andThen. cbn [Plot.f_plotNumber
      Plot.f_colony Plot.f_area Plot.f_pricePerSqFt Plot.f_totalPrice].
    rewrite Hnone.
    destruct (requiredString _ _); [|eexists; reflexivity].
    destruct (required "colony" _); [|eexists; reflexivity].
    destruct (required "area" _); [|eexists; reflexivity].
    destruct (required "pricePerSqFt" _); eexists; reflexivity. }
  destruct Hinvalid as [e Hinvalid].
  unfold createPlot.
  destruct (Plot.f_colony body) as [c|] eqn:Hc.
  - destruct (ColonyModel.findById c db) as [colony|] eqn:Hfound.
    + destruct (existingPlot body db) eqn:Hdup.
      * repeat split; try discriminate.
      * rewrite (create_invalid _ _ _ _ Hinvalid).
        repeat split; try discriminate.
    + repeat split; try discriminate.
      intros _ (c' & [= <-] & Hstored). congruence.
  - repeat split; try discriminate.
    intros _ (c' & Hc' & _). discriminate.
Qed.

Lemma createPlot_needs_totalPrice_witness :
  let body := Plot.mkFields (Some "A-2") (Some Sample.greenParkId)
                            (Some 50%Q) (Some 100%Q) None None None
                            (Some east) None None in
  createPlot Sample.admin Sample.plot2Id body Sample.withA1
  = (sendFailure 500 "Server error", Sample.withA1).
Proof.
  intros body.
  destruct (createPlot_needs_totalPrice Sample.admin Sample.plot2Id body
              Sample.withA1 eq_refl) as (Hdb & _ & Hresp).
  rewrite (surjective_pairing (createPlot _ _ _ _)), Hdb, Hresp;
    [reflexivity|reflexivity|].
  exists Sample.greenParkId. split; [reflexivity|discriminate].
Defined.

(** X17. A plot created through POST /plots is recorded as created by the
    authenticated user, whatever [createdBy] the body carries, with the
    identifier the store assigned, and with status available unless the
    body names another. *)
Theorem createPlot_creator
        (user newId : ObjectId) (body : Plot.fields) (db db' : Db)
        (plot : Plot.t) :
  createPlot user newId body db
  = (sendSuccess 201 "Plot created successfully" (PlotData plot), db') ->
  Plot.createdBy plot = user
  /\ Plot._id plot = newId
  /\ Plot.status plot = withDefault available (Plot.f_status body)
  /\ In plot (plots db').
Proof.
  intros Hcreate.
  apply createPlot_success_inv in Hcreate as (doc & Hvalid & -> & _ & ->).
  destruct (validate_id _ _ _ Hvalid) as (Hid & Hby & Hstatus).
  destruct (recompute_frame (Plot.colony doc)
              (mkDb (plots db ++ [priced doc]) (colonies db)))
    as (db2 & Hrun & Hplots & _).
  rewrite Hrun. cbn [snd].
  change (Plot.createdBy (priced doc)) with (Plot.createdBy doc).
  change (Plot._id (priced doc)) with (Plot._id doc).
  change (Plot.status (priced doc)) with (Plot.status doc).
  cbn [plotData Plot.f_createdBy Plot.f_status] in Hby, Hstatus.
  repeat split; try congruence.
  rewrite Hplots. cbn [plots]. apply in_or_app. right. now left.
Qed.

Lemma createPlot_creator_witness :
  let body := Plot.mkFields (Some "A-1") (Some Sample.greenParkId)
                            (Some 50%Q) (Some 100%Q) (Some 1%Q) None None
                            (Some east) None (Some Sample.plot2Id) in
  exists plot db',
    createPlot Sample.admin Sample.plot1Id body Sample.empty
    = (sendSuccess 201 "Plot created successfully" (PlotData plot), db')
    /\ Plot.createdBy plot = Sample.admin.
Proof.
  intros body. eexists. eexists. split; [reflexivity|].
  eapply (createPlot_creator Sample.admin Sample.plot1Id body Sample.empty).
  reflexivity.
Defined.

End RecomputeAgain.

(** ** Pages of a list *)

Section Pages.

Import PlotRoutes.

(** X18. For a positive limit and a page from 1 on, GET /plots answers with
    at most [limit] plots; the page holds a plot exactly when its number is
    at most [pages]; and every page before the last is full. *)
Theorem listPlots_pages
        (page limit : Z) (filter : Plot.t -> bool) (db : Db) :
  (0 < limit)%Z ->
  (1 <= page)%Z ->
  exists found p,
    listPlots page limit filter db
    = (sendPaginated 200 "Plots fetched" (PlotList found)
         (mkPagination page (Some p) (PlotQuery.countDocuments filter db)),
       db)
    /\ (Z.of_nat (List.length found) <= limit)%Z
    /\ (found <> [] <-> (page <= p)%Z)
    /\ ((page < p)%Z -> Z.of_nat (List.length found) = limit).
Proof.
  intros Hlimit Hpage.
  set (total := PlotQuery.countDocuments filter db).
  destruct (pageCount_ceiling total limit Hlimit) as (p & Hp & Hlow & Hhigh).
  unfold listPlots.
  assert (Hskip : ((page - 1) * limit <? 0)%Z = false)
    by (apply Z.ltb_ge; nia).
  rewrite Hskip. unfold pagination. fold total. rewrite Hp.
  eexists. exists p. split; [reflexivity|].
  unfold slice.
  assert (Hnz : (limit =? 0)%Z = false) by (apply Z.eqb_neq; lia).
  rewrite Hnz.
  set (docs := rev (PlotQuery.find filter db)).
  assert (Hlen : List.length docs = total).
  { unfold docs, total, PlotQuery.countDocuments, PlotQuery.find.
    apply length_rev. }
  set (found := firstn (Z.abs_nat limit)
                       (skipn (Z.to_nat ((page - 1) * limit)) docs)).
  assert (Hfound : List.length found
                   = Nat.min (Z.abs_nat limit)
                             (total - Z.to_nat ((page - 1) * limit))).
  { unfold found. now rewrite length_firstn, length_skipn, Hlen. }
  split; [lia|]. split.
  - split.
    + intros Hne.
      assert (Hpos : (0 < List.length found)%nat).
      { destruct found; [congruence|simpl; lia]. }
      nia.
    + intros Hle Hnil.
      assert (Hzero : List.length found = 0%nat) by now rewrite Hnil.
      nia.
  - intros Hlt. nia.
Qed.

Lemma listPlots_pages_witness :
  exists found p,
    listPlots 1 10 (fun _ => true) Sample.withA1
    = (sendPaginated 200 "Plots fetched" (PlotList found)
         (mkPagination 1 (Some p)
            (PlotQuery.countDocuments (fun _ => true) Sample.withA1)),
       Sample.withA1)
    /\ (Z.of_nat (List.length found) <= 10)%Z.
Proof.
  destruct (listPlots_pages 1 10 (fun _ => true) Sample.withA1)
    as (found & p & Hrun & Hlen & _); [lia|lia|].
  exists found, p. split; [exact Hrun|exact Hlen].
Defined.

End Pages.

(** ** The plots of a colony *)

Section PlotsOfColony.

Import Js Validation.

(** X19. GET /plots/colony/:colonyId answers 400 "Validation failed" to
    every request: its first chain asks for the route parameter [id], which
    this route does not have, so the first record is "Invalid ID format"
    with no value; the handler is never run and no plot is listed. *)
Theorem getPlotsByColony_always_refused
        (plotFilters : list Chain) (handler : Request -> Handler)
        (colonyId : string) (body query : Value) (now : string) (db : Db) :
  PlotRouter.getPlotsByColony plotFilters handler colonyId body query now db
  = (mkResponse 400 false (Some "Validation failed")
       (ValidationErrors
          (mkErrorDetail ["id"] "Invalid ID format" Undefined params
           :: map errorDetail
                  (validationResult
                     plotFilters
                     (mkRequest body (Obj [("colonyId", Str colonyId)])
                                query)))
          now)
       None,
     db).
Proof. reflexivity. Qed.

Example getPlotsByColony_sample :
  PlotRouter.getPlotsByColony
    [] (fun _ => PlotRoutes.listPlots 1 10 (fun _ => true))
    Sample.greenParkId Undefined (Obj []) "2024-01-01T00:00:00.000Z"
    Sample.withA1
  = (mkResponse 400 false (Some "Validation failed")
       (ValidationErrors
          [mkErrorDetail ["id"] "Invalid ID format" Undefined params]
          "2024-01-01T00:00:00.000Z")
       None,
     Sample.withA1).
Proof. reflexivity. Qed.

End PlotsOfColony.

(** ** Identifiers in the route *)

Section RouteIdentifiers.

Import Validation.

(** X20. A route behind [validations.params.objectId] and
    [handleValidationErrors] runs its handler exactly when the [id] of the
    route is 24 hexadecimal characters; for any other text it answers 400
    with the single error "Invalid ID format" and the handler, and with it
    the store, is not reached. *)
Theorem objectId_route
        (id : string) (f : Js.Value -> Js.Value)
        (handler : Request -> Handler) (now : string) (db : Db) :
  let req := mkRequest Js.Undefined (Js.Obj [("id", Js.Str id)])
                       Js.Undefined in
  validatedRoute (params_objectId f) handler req now db
  = if isValidObjectId id then handler req db
    else (mkResponse 400 false (Some "Validation failed")
            (ValidationErrors
               [mkErrorDetail ["id"] "Invalid ID format" (Js.Str id) params]
               now)
            None,
          db).
Proof.
  intros req.
  unfold validatedRoute, validationResult, params_objectId, runChain.
  cbn. destruct (isValidObjectId id); reflexivity.
Qed.

End RouteIdentifiers.

(** ** Seeding the cities *)

Section Seeding.

Import Seed.

Variable newId : list City.t -> ObjectId.

Lemma findOne_key (name state : string) (stored : list City.t) :
  findOne name state stored <> None
  <-> In (name, state) (map cityKey stored).
Proof.
  unfold findOne. split.
  - destruct (find _ stored) as [c|] eqn:E; [intros _|congruence].
    apply find_some in E as [Hin Hq]. unfold byNameAndState in Hq.
    apply andb_true_iff in Hq as [Hn Hs]. apply String.eqb_eq in Hn, Hs.
    apply in_map_iff. exists c. unfold cityKey. now subst.
  - intros Hin E. apply in_map_iff in Hin as (c & Hk & Hin).
    apply (find_none _ _ E) in Hin. unfold cityKey in Hk.
    injection Hk as Hn Hs. unfold byNameAndState in Hin.
    rewrite Hn, Hs, !String.eqb_refl in Hin. discriminate.
Qed.

Lemma initCity_cases (stored : list City.t) (s : City.seed) :
  (In (seedKey s) (map cityKey stored) /\ initCity newId stored s = stored)
  \/ (~ In (seedKey s) (map cityKey stored)
      /\ exists c, cityKey c = seedKey s
                   /\ initCity newId stored s = (stored ++ [c])%list).
Proof.
  unfold initCity.
  destruct (findOne (City.s_name s) (City.s_state s) stored) as [c|] eqn:E.
  - left. split; [|reflexivity]. apply findOne_key. congruence.
  - right. split.
    + intros Hin. apply findOne_key in Hin. congruence.
    + eexists. split; [|reflexivity]. reflexivity.
Qed.

(** The loop only adds at the end, adds nothing it finds, and leaves every
    city of the data stored. *)
Lemma initCitiesFrom_spec (data : list City.seed) (stored : list City.t) :
  exists added,
    initCitiesFrom newId data stored = (stored ++ added)%list
    /\ (forall s, In s data ->
                  In (seedKey s) (map cityKey (stored ++ added)))
    /\ (forall k, In k (map cityKey added) ->
                  In k (map seedKey data) /\ ~ In k (map cityKey stored))
    /\ NoDup (map cityKey added).
Proof.
  revert stored. induction data as [|s data IH]; intros stored.
  - exists []. rewrite app_nil_r. repeat split; try contradiction.
    constructor.
  - unfold initCitiesFrom. cbn [fold_left].
    fold (initCitiesFrom newId data (initCity newId stored s)).
    destruct (initCity_cases stored s) as [[Hin ->]|(Hnew & c & Hc & ->)].
    + destruct (IH stored) as (added & Hrun & Hall & Hfresh & Hnodup).
      exists added. split; [exact Hrun|]. split.
      * intros s' [<-|Hs']; [|now apply Hall].
        rewrite map_app. apply in_or_app. now left.
      * split; [|exact Hnodup].
        intros k Hk. destruct (Hfresh k Hk) as [Hd Hs].
        split; [now right|assumption].
    + destruct (IH (stored ++ [c])%list)
        as (added & Hrun & Hall & Hfresh & Hnodup).
      exists (c :: added). rewrite Hrun, <- app_assoc. split; [reflexivity|].
      split.
      * intros s' [<-|Hs'].
        -- rewrite map_app. apply in_or_app. right. left. exact Hc.
        -- specialize (Hall s' Hs'). now rewrite <- app_assoc in Hall.
      * split.
        -- intros k [<-|Hk].
           ++ rewrite Hc. split; [now left|assumption].
           ++ destruct (Hfresh k Hk) as [Hd Hs]. split; [now right|].
              intros Hin. apply Hs. rewrite map_app. apply in_or_app.
              now left.
        -- cbn [map]. constructor; [|exact Hnodup].
           intros Hin. destruct (Hfresh _ Hin) as [_ Hs]. apply Hs.
           rewrite map_app. apply in_or_app. right. now left.
Qed.

Lemma initCitiesFrom_nothing_new (data : list City.seed)
      (stored : list City.t) :
  (forall s, In s data -> In (seedKey s) (map cityKey stored)) ->
  initCitiesFrom newId data stored = stored.
Proof.
  induction data as [|s data IH]; intros Hall; [reflexivity|].
  unfold initCitiesFrom. cbn [fold_left].
  fold (initCitiesFrom newId data (initCity newId stored s)).
  destruct (initCity_cases stored s) as [[_ ->]|[Hnew _]].
  - apply IH. intros s' Hs'. apply Hall. now right.
  - exfalso. apply Hnew, Hall. now left.
Qed.

(** X21. [initCities] can be run again and again: it never removes or
    changes a stored city, after it each of the five cities is found under
    its name and state, and a second run adds nothing. *)
Theorem initCities_idempotent (stored : list City.t) :
  (exists added, initCities newId stored = (stored ++ added)%list)
  /\ (forall s, In s cities ->
        findOne (City.s_name s) (City.s_state s) (initCities newId stored)
        <> None)
  /\ initCities newId (initCities newId stored) = initCities newId stored.
Proof.
  unfold initCities.
  destruct (initCitiesFrom_spec cities stored)
    as (added & Hrun & Hall & _ & _).
  split; [now exists added|]. split.
  - intros s Hs. apply findOne_key. rewrite Hrun. now apply Hall.
  - apply initCitiesFrom_nothing_new. intros s Hs.
    rewrite Hrun. now apply Hall.
Qed.

(** X22. [initCities] creates no second city of a name and state: if the
    stored cities are distinct by name and state, so are they afterwards;
    and on an empty collection it creates exactly the five cities, in the
    order of the list. *)
Theorem initCities_no_duplicates (stored : list City.t) :
  NoDup (map cityKey stored) ->
  NoDup (map cityKey (initCities newId stored))
  /\ map cityKey (initCities newId []) = map seedKey cities.
Proof.
  intros Hnodup. split; [|reflexivity].
  unfold initCities.
  destruct (initCitiesFrom_spec cities stored)
    as (added & -> & _ & Hfresh & Hadded).
  rewrite map_app.
  revert Hfresh Hadded.
  generalize (map cityKey added) as ks. intros ks Hfresh Hks.
  induction (map cityKey stored) as [|k l IH]; simpl; [assumption|].
  inversion Hnodup as [|? ? Hk Hl]; subst.
  constructor.
  - intros Hin. apply in_app_or in Hin as [Hin|Hin]; [contradiction|].
    destruct (Hfresh k Hin) as [_ Hs]. apply Hs. now left.
  - apply IH; [assumption|].
    intros k' Hk'. destruct (Hfresh k' Hk') as [Hd Hs].
    split; [assumption|]. intros Hin. apply Hs. now right.
Qed.

End Seeding.

Lemma initCities_no_duplicates_witness :
  NoDup (map Seed.cityKey []) /\
  NoDup (map Seed.cityKey (Seed.initCities (fun _ => Sample.admin) [])).
Proof.
  split; [constructor|].
  apply (initCities_no_duplicates (fun _ => Sample.admin) []). constructor.
Defined.
